(** * The resilient backend API client (app/services/api)

    A shallow embedding of the TypeScript module that every page of the
    storefront analytics application uses to reach the FastAPI backend:
    [fetchWithTimeout], [ApiClient.request] with its retry loop,
    [ApiClient.checkHealth] with its process-wide cache, the endpoint
    wrappers ([getShop], [registerShop], [getInsights], ...) and
    [resolveShopId].

    Conventions of the embedding.
    - JavaScript values are the inductive [value]; a JavaScript string is a
      Rocq [string] holding its UTF-8 bytes.
    - A [number] is an integer-valued double or NaN: the numbers this module
      handles are HTTP statuses, page indices and page sizes.
    - Asynchronous code runs sequentially (one logical call at a time), so a
      promise is a computation of the monad [M]: a function from the world
      to a completion (normal return or thrown exception) and a new world.
    - The network and the clock are oracles of the environment [Env]: the
      n-th transport call and the n-th clock read get the answer the
      environment holds for them.  A timeout of [fetchWithTimeout] is the
      oracle answering with an [AbortError].
    - The runtime is Node ([process] is defined). *)

From Stdlib Require Import String Ascii List ZArith Lia Bool Arith.
From Stdlib Require Import DecimalString DecimalPos.
From Equations Require Import Equations.
Import ListNotations.
Open Scope string_scope.

Set Implicit Arguments.
Set Warnings "-register-all".

(* ------------------------------------------------------------------ *)
(** ** Strings *)

(** [String.prototype.includes]: [needle] occurs somewhere in [hay]. *)
Fixpoint includes (hay needle : string) : bool :=
  if prefix needle hay then true
  else match hay with
       | EmptyString => false
       | String _ rest => includes rest needle
       end.

(** [Array.prototype.join]. *)
Fixpoint join (sep : string) (parts : list string) : string :=
  match parts with
  | [] => EmptyString
  | [p] => p
  | p :: rest => p ++ sep ++ join sep rest
  end.

(* ------------------------------------------------------------------ *)
(** ** JavaScript values *)

Inductive number : Type :=
| Int (z : Z)
| NaN.

Inductive value : Type :=
| VUndefined
| VNull
| VBool (b : bool)
| VNum (n : number)
| VStr (s : string)
| VArr (items : list value)
| VObj (fields : list (string * value)).

(** [String(n)] for a number: the decimal notation of the integer.  It is
    what JavaScript prints for the integers a double holds exactly, those
    up to 2^53 in absolute value; past them JavaScript prints the shortest
    digits that read back as the same double, and exponent notation from
    1e21 on. *)
Definition number_to_String (n : number) : string :=
  match n with
  | Int z => NilZero.string_of_int (Z.to_int z)
  | NaN => "NaN"
  end.

(** ToBoolean. *)
Definition truthy (v : value) : bool :=
  match v with
  | VUndefined | VNull => false
  | VBool b => b
  | VNum (Int z) => negb (z =? 0)%Z
  | VNum NaN => false
  | VStr s => negb (s =? EmptyString)
  | VArr _ | VObj _ => true
  end.

(** ToString, as [new Error(v)] and template literals apply it. *)
Fixpoint to_String (v : value) : string :=
  match v with
  | VUndefined => "undefined"
  | VNull => "null"
  | VBool true => "true"
  | VBool false => "false"
  | VNum n => number_to_String n
  | VStr s => s
  | VArr items =>
      join "," (map (fun x => match x with
                              | VUndefined | VNull => EmptyString
                              | _ => to_String x
                              end) items)
  | VObj _ => "[object Object]"
  end.

(** [a || b] on values. *)
Definition or_else (a b : value) : value := if truthy a then a else b.

(** [a === "..."] against a string literal. *)
Definition strict_eq_string (a : value) (lit : string) : bool :=
  match a with
  | VStr s => s =? lit
  | _ => false
  end.

(** Own property of an object literal or of a parsed JSON object: the first
    binding of the key. *)
Fixpoint lookup (key : string) (fields : list (string * value)) : value :=
  match fields with
  | [] => VUndefined
  | (k, v) :: rest => if k =? key then v else lookup key rest
  end.

(* ------------------------------------------------------------------ *)
(** ** Exceptions and completions *)

(** What a [catch] clause can receive: an [Error] instance (with its [name]
    and [message]) or any other thrown value. *)
Inductive exn : Type :=
| ErrorObj (name message : string)
| Thrown (v : value).

Inductive Completion (A : Type) : Type :=
| Return (a : A)
| Throw (e : exn).
Arguments Return {A} a.
Arguments Throw {A} e.

(** [error instanceof Error ? error.message : fallback]. *)
Definition message_or (fallback : string) (e : exn) : string :=
  match e with
  | ErrorObj _ m => m
  | Thrown _ => fallback
  end.

(** Property read [v.key], for the keys this module reads ([detail],
    [status], [version], [id]): none of them is inherited by a primitive or
    an array.  Reading a property of [null] or [undefined] throws (the
    message is V8's). *)
Definition get_prop (v : value) (key : string) : Completion value :=
  match v with
  | VUndefined =>
      Throw (ErrorObj "TypeError"
               ("Cannot read properties of undefined (reading '" ++ key ++ "')"))
  | VNull =>
      Throw (ErrorObj "TypeError"
               ("Cannot read properties of null (reading '" ++ key ++ "')"))
  | VObj fields => Return (lookup key fields)
  | VBool _ | VNum _ | VStr _ | VArr _ => Return VUndefined
  end.

(* ------------------------------------------------------------------ *)
(** ** HTTP *)

(** What [response.json()] settles to. *)
Inductive Body : Type :=
| Json (v : value)
| Malformed (e : exn).

Record Response : Type := {
  status : Z;
  body : Body
}.

(** [response.ok]. *)
Definition ok (r : Response) : bool :=
  ((200 <=? status r) && (status r <=? 299))%Z.

(** What the promise of [fetch] settles to. *)
Inductive Fetched : Type :=
| Rejected (e : exn)
| Resolved (r : Response).

(** [RequestInit], as the module uses it.  [init_body] holds the value
    handed to [JSON.stringify]. *)
Record RequestInit : Type := {
  init_method : option string;
  init_headers : list (string * string);
  init_body : option value
}.

Definition no_options : RequestInit :=
  {| init_method := None; init_headers := []; init_body := None |}.

(** One call of the transport primitive, as the network sees it. *)
Record Call : Type := {
  call_url : string;
  call_init : RequestInit;
  call_timeout : Z
}.

(* ------------------------------------------------------------------ *)
(** ** Module state and environment *)

Record HealthStatus : Type := {
  healthy : bool;
  version : value;
  timestamp : Z;
  error : option string
}.

Inductive Printed : Type :=
| PText (s : string)
| PExn (e : exn).

Inductive LogLine : Type :=
| Warn (args : list Printed)
| Error (args : list Printed).

(** What the module does to the outside, in the order it does it: transport
    calls and timer waits. *)
Inductive IO : Type :=
| Fetch (call : Call)
| Sleep (ms : Z).

Record World : Type := {
  healthCache : option HealthStatus;  (* let healthCache *)
  io : list IO;                       (* calls and waits, oldest first *)
  clock_reads : nat;                  (* clock reads made so far *)
  console : list LogLine              (* console output, oldest first *)
}.

(** The transport calls in a history, oldest first. *)
Fixpoint calls_of (l : list IO) : list Call :=
  match l with
  | [] => []
  | Fetch call :: rest => call :: calls_of rest
  | Sleep _ :: rest => calls_of rest
  end.

(** The delays slept in a history, oldest first. *)
Fixpoint slept_of (l : list IO) : list Z :=
  match l with
  | [] => []
  | Fetch _ :: rest => slept_of rest
  | Sleep ms :: rest => ms :: slept_of rest
  end.

Definition calls (w : World) : list Call := calls_of (io w).
Definition slept (w : World) : list Z := slept_of (io w).

Record Env : Type := {
  network : nat -> Call -> Fetched;   (* answer to the n-th transport call *)
  time : nat -> Z;                    (* value of the n-th clock read, in ms *)
  BACKEND_API_URL : option string;    (* process.env.BACKEND_API_URL *)
  SCOPES : option string              (* process.env.SCOPES *)
}.

Definition M (A : Type) : Type := World -> Completion A * World.

Definition ret {A} (a : A) : M A := fun w => (Return a, w).

Definition throw {A} (e : exn) : M A := fun w => (Throw e, w).

Definition bind {A B} (m : M A) (k : A -> M B) : M B :=
  fun w => match m w with
           | (Return a, w') => k a w'
           | (Throw e, w') => (Throw e, w')
           end.

(** [try { m } catch (e) { handler e }]. *)
Definition try_catch {A} (m : M A) (handler : exn -> M A) : M A :=
  fun w => match m w with
           | (Return a, w') => (Return a, w')
           | (Throw e, w') => handler e w'
           end.

(** A completion computed without touching the world. *)
Definition lift {A} (c : Completion A) : M A := fun w => (c, w).

Declare Scope js_scope.
Delimit Scope js_scope with js.
Notation "x <- m ;; k" := (bind m (fun x => k))
  (at level 61, m at next level, right associativity) : js_scope.
Notation "m ;; k" := (bind m (fun _ => k))
  (at level 61, right associativity) : js_scope.
Open Scope js_scope.

Definition set_io (l : list IO) (w : World) : World :=
  {| healthCache := healthCache w; io := l;
     clock_reads := clock_reads w; console := console w |}.

Definition set_clock_reads (n : nat) (w : World) : World :=
  {| healthCache := healthCache w; io := io w;
     clock_reads := n; console := console w |}.

Definition set_console (l : list LogLine) (w : World) : World :=
  {| healthCache := healthCache w; io := io w;
     clock_reads := clock_reads w; console := l |}.

Definition set_healthCache (h : option HealthStatus) (w : World) : World :=
  {| healthCache := h; io := io w;
     clock_reads := clock_reads w; console := console w |}.

(** The world of a freshly loaded module. *)
Definition initial_world : World :=
  {| healthCache := None; io := []; clock_reads := 0; console := [] |}.

(* ------------------------------------------------------------------ *)
(** ** Configuration constants *)

Definition DEFAULT_BACKEND_URL : string := "https://ecomdash-api.onrender.com".
Definition REQUEST_TIMEOUT_MS : Z := 10000.
Definition MAX_RETRIES : nat := 3.
Definition RETRY_DELAYS : list Z := [1000; 2000; 4000]%Z.
Definition HEALTH_CHECK_CACHE_MS : Z := 60000.

(** [process.env.X || fallback]. *)
Definition env_or (x : option string) (fallback : string) : string :=
  match x with
  | Some s => if s =? EmptyString then fallback else s
  | None => fallback
  end.

Record ApiConfig : Type := {
  shopId : string;
  accessToken : string
}.

Record ApiClient : Type := {
  baseUrl : string;
  config : option ApiConfig
}.

(** Object spread [{...a, ...b}] of two string-keyed objects: the keys of
    [a] in order, with the values [b] gives them, then the keys only [b]
    has. *)
Fixpoint has_key (k : string) (o : list (string * string)) : bool :=
  match o with
  | [] => false
  | (k', _) :: rest => (k' =? k) || has_key k rest
  end.

Fixpoint assign (o : list (string * string)) (k v : string)
  : list (string * string) :=
  match o with
  | [] => [(k, v)]
  | (k', v') :: rest =>
      if k' =? k then (k, v) :: rest else (k', v') :: assign rest k v
  end.

Definition spread (a b : list (string * string)) : list (string * string) :=
  fold_left (fun acc kv => assign acc (fst kv) (snd kv)) b a.

(* ------------------------------------------------------------------ *)
(** ** The client *)

Section Client.

Variable env : Env.

(** [const BACKEND_URL]. *)
Definition BACKEND_URL : string :=
  env_or (BACKEND_API_URL env) DEFAULT_BACKEND_URL.

(** [Date.now()] and [new Date()]: the next clock read. *)
Definition Date_now : M Z :=
  fun w => (Return (time env (clock_reads w)),
            set_clock_reads (S (clock_reads w)) w).

(** [sleep(ms)]. *)
Definition sleep (ms : Z) : M unit :=
  fun w => (Return tt, set_io (io w ++ [Sleep ms]) w).

Definition console_warn (args : list Printed) : M unit :=
  fun w => (Return tt, set_console (console w ++ [Warn args]) w).

Definition console_error (args : list Printed) : M unit :=
  fun w => (Return tt, set_console (console w ++ [Error args]) w).

Definition read_healthCache : M (option HealthStatus) :=
  fun w => (Return (healthCache w), w).

Definition write_healthCache (h : HealthStatus) : M unit :=
  fun w => (Return tt, set_healthCache (Some h) w).

(** [fetchWithTimeout(url, options, timeoutMs)]: one transport call.  The
    abort timer is the environment's business: when it fires, the answer is
    a rejection with an [AbortError]; the [finally] clause only clears the
    timer. *)
Definition fetchWithTimeout (url : string) (options : RequestInit)
    (timeoutMs : Z) : M Response :=
  fun w =>
    let call := {| call_url := url; call_init := options;
                   call_timeout := timeoutMs |} in
    let w' := set_io (io w ++ [Fetch call]) w in
    match network env (length (calls w)) call with
    | Resolved r => (Return r, w')
    | Rejected e => (Throw e, w')
    end.

(** [await response.json()]. *)
Definition response_json (r : Response) : M value :=
  match body r with
  | Json v => ret v
  | Malformed e => throw e
  end.

(** [constructor(baseUrl = BACKEND_URL)]. *)
Definition new_ApiClient (base : option string) : ApiClient :=
  {| baseUrl := match base with Some b => b | None => BACKEND_URL end;
     config := None |}.

(** [configure(config)]. *)
Definition configure (c : ApiClient) (cfg : ApiConfig) : ApiClient :=
  {| baseUrl := baseUrl c; config := Some cfg |}.

(** [getHeaders()]. *)
Definition getHeaders (c : ApiClient) : list (string * string) :=
  let headers := [("Content-Type", "application/json")] in
  match config c with
  | Some cfg =>
      if accessToken cfg =? EmptyString then headers
      else headers ++ [("Authorization", "Bearer " ++ accessToken cfg);
                       ("X-Shopify-Access-Token", accessToken cfg)]
  | None => headers
  end.

(** [checkHealth()].  It returns the module variable [healthCache], whose
    type is [HealthStatus | null]: [None] stands for [null]. *)
Definition checkHealth (c : ApiClient) : M (option HealthStatus) :=
  cached <- read_healthCache ;;
  valid <- match cached with
           | Some h =>
               now <- Date_now ;;
               ret (now - timestamp h <? HEALTH_CHECK_CACHE_MS)%Z
           | None => ret false
           end ;;
  if valid then ret cached
  else
    try_catch
      (response <- fetchWithTimeout (baseUrl c ++ "/health")
                     {| init_method := Some "GET"; init_headers := [];
                        init_body := None |} 5000 ;;
       if ok response then
         data <- response_json response ;;
         data_status <- lift (get_prop data "status") ;;
         data_version <- lift (get_prop data "version") ;;
         now <- Date_now ;;
         write_healthCache
           {| healthy := strict_eq_string data_status "healthy";
              version := or_else data_version (VStr "unknown");
              timestamp := now;
              error := None |}
       else
         now <- Date_now ;;
         write_healthCache
           {| healthy := false;
              version := VStr "unknown";
              timestamp := now;
              error := Some ("HTTP " ++ number_to_String (Int (status response))) |})
      (fun e =>
         now <- Date_now ;;
         write_healthCache
           {| healthy := false;
              version := VStr "unknown";
              timestamp := now;
              error := Some (message_or "Unknown error" e) |}) ;;
    read_healthCache.

(** The test of [request]'s [catch] clause. *)
Definition isRetryable (e : exn) : bool :=
  match e with
  | ErrorObj name message =>
      (name =? "AbortError")      (* Timeout *)
      || includes message "fetch" (* Network error *)
      || includes message "5"     (* 5xx errors *)
  | Thrown _ => false
  end.

(** The transport call [request] issues for an endpoint. *)
Definition request_init (c : ApiClient) (options : RequestInit) : RequestInit :=
  {| init_method := init_method options;
     init_headers := spread (getHeaders c) (init_headers options);
     init_body := init_body options |}.

(** The [try] block of [request].  A promise that the block returns without
    awaiting it ([return response.json()]) is handed out as a computation:
    it settles outside the [try], so its rejection is not caught there. *)
Definition request_try (c : ApiClient) (endpoint : string)
    (options : RequestInit) : M (M value) :=
  let url := baseUrl c ++ endpoint in
  response <- fetchWithTimeout url (request_init c options) REQUEST_TIMEOUT_MS ;;
  if negb (ok response) then
    err <- try_catch (response_json response)
             (fun _ => ret (VObj [("detail", VStr "Unknown error")])) ;;
    detail <- lift (get_prop err "detail") ;;
    throw (ErrorObj "Error"
             (to_String
                (or_else detail
                   (VStr ("API error: " ++ number_to_String (Int (status response)))))))
  else
    ret (response_json response).

(** [request(endpoint, options, retryCount = 0)]. *)
Equations? request (c : ApiClient) (endpoint : string) (options : RequestInit)
    (retryCount : nat) : M value by wf (MAX_RETRIES - retryCount) lt :=
request c endpoint options retryCount :=
  promise <-
    try_catch (request_try c endpoint options)
      (fun e =>
         let rethrow : M (M value) :=
           console_error
             [PText ("API request failed after "
                     ++ number_to_String (Int (Z.of_nat retryCount)) ++ " retries:");
              PText endpoint; PExn e] ;;
           throw e in
         match lt_dec retryCount MAX_RETRIES with
         | left _ =>
             if isRetryable e then
               console_warn
                 [PText ("API request failed, retrying ("
                         ++ number_to_String (Int (Z.of_nat (retryCount + 1)))
                         ++ "/" ++ number_to_String (Int (Z.of_nat MAX_RETRIES))
                         ++ "):");
                  PText endpoint] ;;
               (* RETRY_DELAYS[retryCount]; past the end it is undefined,
                  which the timer takes as 0 *)
               sleep (nth retryCount RETRY_DELAYS 0%Z) ;;
               ret (request c endpoint options (retryCount + 1))
             else rethrow
         | right _ => rethrow
         end) ;;
  promise.
Proof.
  clear - l. unfold MAX_RETRIES in l.
  do 3 (destruct retryCount as [|retryCount]; simpl; try lia).
Qed.

(** [safeRequest(endpoint, options)]. *)
Definition safeRequest (c : ApiClient) (endpoint : string)
    (options : RequestInit) : M value :=
  try_catch (request c endpoint options 0) (fun _ => ret VNull).

Definition POST (payload : option value) : RequestInit :=
  {| init_method := Some "POST"; init_headers := []; init_body := payload |}.

(** Shop endpoints. *)
Definition registerShop (c : ApiClient) (domain token scopes : string)
  : M value :=
  request c "/api/shops"
    (POST (Some (VObj [("domain", VStr domain);
                       ("access_token", VStr token);
                       ("scopes", VStr scopes)]))) 0.

Definition getShop (c : ApiClient) (domain : string) : M value :=
  request c ("/api/shops/" ++ domain) no_options 0.

Definition syncShop (c : ApiClient) (shop : string) : M value :=
  request c ("/api/shops/" ++ shop ++ "/sync") (POST None) 0.

(** Dashboard endpoints. *)
Definition getDashboardStats (c : ApiClient) (shop : string) : M value :=
  request c ("/api/dashboard/stats?shop_id=" ++ shop) no_options 0.

Definition getRevenueChart (c : ApiClient) (shop : string)
    (days : option number) : M value :=
  let days := match days with Some d => d | None => Int 7 end in
  request c ("/api/dashboard/revenue-chart?shop_id=" ++ shop
             ++ "&days=" ++ number_to_String days) no_options 0.

Definition getTopProducts (c : ApiClient) (shop : string)
    (limit : option number) : M value :=
  let limit := match limit with Some l => l | None => Int 5 end in
  request c ("/api/dashboard/top-products?shop_id=" ++ shop
             ++ "&limit=" ++ number_to_String limit) no_options 0.

Definition getDashboardSummary (c : ApiClient) (shop : string) : M value :=
  request c ("/api/dashboard/summary?shop_id=" ++ shop) no_options 0.

End Client.

(* ------------------------------------------------------------------ *)
(** ** URLSearchParams *)

Module URLSearchParams.

Definition t : Type := list (string * string).

(** Bytes the application/x-www-form-urlencoded serializer leaves as they
    are: ASCII letters and digits, [*], [-], [.] and [_]. *)
Definition unreserved (a : ascii) : bool :=
  let n := nat_of_ascii a in
  (((48 <=? n) && (n <=? 57)) || ((65 <=? n) && (n <=? 90))
   || ((97 <=? n) && (n <=? 122))
   || (n =? 42) || (n =? 45) || (n =? 46) || (n =? 95))%nat.

Definition hex_digit (n : nat) : ascii :=
  nth n (list_ascii_of_string "0123456789ABCDEF") "0"%char.

Definition encode_byte (a : ascii) : string :=
  if unreserved a then String a EmptyString
  else if (a =? " ")%char then "+"
  else let n := nat_of_ascii a in
       String "%" (String (hex_digit (n / 16)) (String (hex_digit (n mod 16)) EmptyString)).

(** The serializer on the UTF-8 bytes of a well-formed string.  A lone
    surrogate of a JavaScript string, which the serializer replaces by
    U+FFFD before it encodes, has no such bytes: strings with one are not
    in the model. *)
Fixpoint encode (s : string) : string :=
  match s with
  | EmptyString => EmptyString
  | String a rest => encode_byte a ++ encode rest
  end.

(** [set(name, value)]: the first pair named [name] takes the value and the
    other pairs of that name go; without such a pair, one is appended. *)
Definition remove (name : string) (l : t) : t :=
  filter (fun kv => negb (fst kv =? name)) l.

Fixpoint set (l : t) (name val : string) : t :=
  match l with
  | [] => [(name, val)]
  | (k, v) :: rest =>
      if k =? name then (name, val) :: remove name rest
      else (k, v) :: set rest name val
  end.

(** [toString()], which a template literal applies. *)
Definition toString (l : t) : string :=
  join "&" (map (fun kv => encode (fst kv) ++ "=" ++ encode (snd kv)) l).

End URLSearchParams.

(* ------------------------------------------------------------------ *)
(** ** Insights endpoints and the exported helpers *)

Record InsightsParams : Type := {
  page : option number;
  pageSize : option number;
  type : option string;
  severity : option string;
  includeDismissed : option bool
}.

(** [params?.field]. *)
Definition opt {A} (params : option InsightsParams)
    (field : InsightsParams -> option A) : option A :=
  match params with
  | Some p => field p
  | None => None
  end.

(** [if (x) searchParams.set(name, text x)] for an optional [x]. *)
Definition set_if {A} (x : option A) (to_value : A -> value)
    (name : string) (text : A -> string) (sp : URLSearchParams.t)
  : URLSearchParams.t :=
  match x with
  | Some a => if truthy (to_value a) then URLSearchParams.set sp name (text a)
              else sp
  | None => sp
  end.

(** The [searchParams] that [getInsights] builds. *)
Definition getInsights_searchParams (shop : string)
    (params : option InsightsParams) : URLSearchParams.t :=
  let sp := [("shop_id", shop)] in
  let sp := set_if (opt params page) VNum "page" number_to_String sp in
  let sp := set_if (opt params pageSize) VNum "page_size" number_to_String sp in
  let sp := set_if (opt params type) VStr "type" (fun s => s) sp in
  let sp := set_if (opt params severity) VStr "severity" (fun s => s) sp in
  let sp := set_if (opt params includeDismissed) VBool "include_dismissed"
              (fun _ => "true") sp in
  sp.

Definition getInsights_endpoint (shop : string)
    (params : option InsightsParams) : string :=
  "/api/insights?" ++ URLSearchParams.toString (getInsights_searchParams shop params).

Section Exports.

Variable env : Env.

Definition getInsights (c : ApiClient) (shop : string)
    (params : option InsightsParams) : M value :=
  request env c (getInsights_endpoint shop params) no_options 0.

Definition getInsight (c : ApiClient) (insightId : string) : M value :=
  request env c ("/api/insights/" ++ insightId) no_options 0.

Definition dismissInsight (c : ApiClient) (insightId : string) : M value :=
  request env c ("/api/insights/" ++ insightId ++ "/dismiss") (POST None) 0.

Definition actionInsight (c : ApiClient) (insightId : string) : M value :=
  request env c ("/api/insights/" ++ insightId ++ "/action") (POST None) 0.

Definition healthCheck (c : ApiClient) : M value :=
  request env c "/health" no_options 0.

(** [createApiClient(accessToken, shopId)]. *)
Definition createApiClient (token shop : string) : M ApiClient :=
  let client :=
    configure (new_ApiClient env (Some (BACKEND_URL env)))
      {| accessToken := token; shopId := shop |} in
  health <- checkHealth env client ;;
  match health with
  | None =>
      throw (ErrorObj "TypeError"
               "Cannot read properties of null (reading 'healthy')")
  | Some h =>
      (if negb (healthy h) then
         console_warn
           [PText ("Backend health check failed: "
                   ++ match error h with
                      | Some msg => if msg =? EmptyString then "unknown" else msg
                      | None => "unknown"
                      end)]
       else ret tt) ;;
      ret client
  end.

(** [resolveShopId(client, shopDomain, accessToken)]; [VNull] is [null]. *)
Definition resolveShopId (client : ApiClient) (shopDomain token : string)
  : M value :=
  try_catch
    (shop <- getShop env client shopDomain ;;
     lift (get_prop shop "id"))
    (fun _ =>
       try_catch
         (let scopes := env_or (SCOPES env) "read_products,read_orders" in
          newShop <- registerShop env client shopDomain token scopes ;;
          lift (get_prop newShop "id"))
         (fun regError =>
            console_error [PText "Failed to resolve shop ID:"; PExn regError] ;;
            ret VNull)).

(** [getBackendHealth()]. *)
Definition getBackendHealth : M (option HealthStatus) :=
  checkHealth env (new_ApiClient env (Some (BACKEND_URL env))).

End Exports.

(* ================================================================== *)
(** * Observations: what the theorems talk about *)

(* ------------------------------------------------------------------ *)
(** ** One attempt of [request], seen from outside *)

(** The transport call every attempt of [request] issues. *)
Definition request_call (c : ApiClient) (endpoint : string)
    (options : RequestInit) : Call :=
  {| call_url := baseUrl c ++ endpoint;
     call_init := request_init c options;
     call_timeout := REQUEST_TIMEOUT_MS |}.

(** The [Error] thrown for a response that is not [ok]. *)
Definition http_error (r : Response) : exn :=
  match body r with
  | Malformed _ => ErrorObj "Error" "Unknown error"
  | Json v =>
      match get_prop v "detail" with
      | Throw e => e
      | Return detail =>
          ErrorObj "Error"
            (to_String
               (or_else detail
                  (VStr ("API error: " ++ number_to_String (Int (status r))))))
      end
  end.

(** What the [catch] clause of [request] receives, if anything, when the
    network answers [f]. *)
Definition caught (f : Fetched) : option exn :=
  match f with
  | Rejected e => Some e
  | Resolved r => if ok r then None else Some (http_error r)
  end.

(** What a single attempt settles to when the network answers [f]. *)
Definition attempt_result (f : Fetched) : Completion value :=
  match f with
  | Rejected e => Throw e
  | Resolved r =>
      if ok r then
        match body r with
        | Json v => Return v
        | Malformed e => Throw e
        end
      else Throw (http_error r)
  end.

(** The answer of the network to the next transport call. *)
Definition next_answer (env : Env) (w : World) (call : Call) : Fetched :=
  network env (length (calls w)) call.

(** The history of the retries of [call] made after each of [delays]. *)
Definition retries (call : Call) (delays : list Z) : list IO :=
  flat_map (fun ms => [Sleep ms; Fetch call]) delays.

Definition add_call (call : Call) (w : World) : World :=
  set_io (io w ++ [Fetch call]) w.

(* ------------------------------------------------------------------ *)
(** ** [checkHealth] *)

(** The probe [checkHealth] issues. *)
Definition health_call (c : ApiClient) : Call :=
  {| call_url := baseUrl c ++ "/health";
     call_init := {| init_method := Some "GET"; init_headers := [];
                     init_body := None |};
     call_timeout := 5000 |}.

(** The test that guards the probe. *)
Definition cache_valid (env : Env) (w : World) : bool :=
  match healthCache w with
  | Some h => (time env (clock_reads w) - timestamp h <? HEALTH_CHECK_CACHE_MS)%Z
  | None => false
  end.

(** The world once the guard has been evaluated: the clock is read only
    when there is a cached status. *)
Definition after_guard (w : World) : World :=
  match healthCache w with
  | Some _ => set_clock_reads (S (clock_reads w)) w
  | None => w
  end.

(** Why a probe counts as failed, if it does: the reason recorded in the
    [error] field. *)
Definition probe_failure (f : Fetched) : option string :=
  match f with
  | Rejected e => Some (message_or "Unknown error" e)
  | Resolved r =>
      if ok r then
        match body r with
        | Malformed e => Some (message_or "Unknown error" e)
        | Json v =>
            match get_prop v "status" with
            | Throw e => Some (message_or "Unknown error" e)
            | Return _ => None
            end
        end
      else Some ("HTTP " ++ number_to_String (Int (status r)))
  end.

(** The status a probe answered by [f] leaves in the cache at time [now]. *)
Definition probe_status (f : Fetched) (now : Z) : HealthStatus :=
  match probe_failure f with
  | Some reason =>
      {| healthy := false; version := VStr "unknown"; timestamp := now;
         error := Some reason |}
  | None =>
      match f with
      | Resolved {| status := _; body := Json (VObj fields) |} =>
          {| healthy := strict_eq_string (lookup "status" fields) "healthy";
             version := or_else (lookup "version" fields) (VStr "unknown");
             timestamp := now; error := None |}
      | _ =>
          {| healthy := false; version := VStr "unknown"; timestamp := now;
             error := None |}
      end
  end.

(** The [i]-th transport call was a probe answered 2xx with a body whose
    [status] is the string "healthy". *)
Definition healthy_probe (env : Env) (i : nat) (call : Call) : Prop :=
  exists (r : Response) (v : value),
    network env i call = Resolved r
    /\ ok r = true
    /\ body r = Json v
    /\ get_prop v "status" = Return (VStr "healthy").

(** A cached [healthy = true] is backed by a probe of the history. *)
Definition cache_justified (env : Env) (w : World) : Prop :=
  forall h : HealthStatus,
    healthCache w = Some h ->
    healthy h = true ->
    exists (i : nat) (call : Call),
      nth_error (calls w) i = Some call /\ healthy_probe env i call.

(** The worlds a session can be in: the module starts from
    [initial_world] and changes it through [checkHealth], [request] and
    console output only. *)
Inductive reachable (env : Env) : World -> Prop :=
| reach_start : reachable env initial_world
| reach_checkHealth (c : ApiClient) (w : World) :
    reachable env w -> reachable env (snd (checkHealth env c w))
| reach_request (c : ApiClient) (endpoint : string) (options : RequestInit)
    (retryCount : nat) (w : World) :
    reachable env w ->
    reachable env (snd (request env c endpoint options retryCount w))
| reach_console (lines : list LogLine) (w : World) :
    reachable env w -> reachable env (set_console lines w).

(* ------------------------------------------------------------------ *)
(** ** [getInsights] and [resolveShopId] *)

Definition params_of (p ps : option number) (ty sev : option string)
    (dis : option bool) : option InsightsParams :=
  Some {| page := p; pageSize := ps; type := ty; severity := sev;
          includeDismissed := dis |}.

(** The pair an optional parameter contributes to the query. *)
Definition pair_if {A} (x : option A) (to_value : A -> value)
    (name : string) (text : A -> string) : URLSearchParams.t :=
  match x with
  | Some a => if truthy (to_value a) then [(name, text a)] else []
  | None => []
  end.

(** The transport call of the lookup by domain. *)
Definition lookup_call (client : ApiClient) (domain : string) : Call :=
  request_call client ("/api/shops/" ++ domain) no_options.

(** The scopes sent at registration. *)
Definition configured_scopes (env : Env) : string :=
  env_or (SCOPES env) "read_products,read_orders".

(** The transport call of the registration: a POST whose body is the JSON
    text of the domain, the credential and the configured scopes. *)
Definition register_call (env : Env) (client : ApiClient)
    (domain token : string) : Call :=
  request_call client "/api/shops"
    (POST (Some (VObj [("domain", VStr domain);
                       ("access_token", VStr token);
                       ("scopes", VStr (configured_scopes env))]))).

(** [shop.id] of what a shop endpoint settled to. *)
Definition shop_id (r : Completion value) : Completion value :=
  match r with
  | Return shop => get_prop shop "id"
  | Throw e => Throw e
  end.

(* ================================================================== *)
(** * The callers and helpers around the client *)

(* ------------------------------------------------------------------ *)
(** ** The loader of the insights page (app/routes/app.insights) *)

Module InsightsRoute.

(** What [authenticate.admin] yields: the session of the shop. *)
Record Session : Type := {
  shop : string;
  session_accessToken : option string
}.

Record LoaderData : Type := {
  insights : value;
  journeyStats : value;
  conversionGoal : value;
  data_error : option string;
  data_shopId : string
}.

Definition set_error (msg : string) (data : LoaderData) : LoaderData :=
  {| insights := insights data; journeyStats := journeyStats data;
     conversionGoal := conversionGoal data; data_error := Some msg;
     data_shopId := data_shopId data |}.

Definition set_insights (items : value) (data : LoaderData) : LoaderData :=
  {| insights := items; journeyStats := journeyStats data;
     conversionGoal := conversionGoal data; data_error := data_error data;
     data_shopId := data_shopId data |}.

Definition register_failed : string :=
  "Could not register shop with backend. Data sync may be pending.".

Definition backend_unavailable : string := "Backend unavailable".

(** [loader({ request })].  [authenticate_admin] stands for
    [authenticate.admin(request)], which lives outside this module; a value
    handed to [getInsights] as the shop goes through ToString, as the
    constructor of [URLSearchParams] does it; [items], like the keys
    [get_prop] is used with elsewhere, is inherited by no primitive and no
    array. *)
Definition loader (env : Env) (authenticate_admin : M Session) : M LoaderData :=
  session <- authenticate_admin ;;
  let shopDomain := shop session in
  let accessToken := env_or (session_accessToken session) EmptyString in
  let data := {| insights := VArr []; journeyStats := VNull;
                 conversionGoal := VNull; data_error := None;
                 data_shopId := shopDomain |} in
  try_catch
    (api <- createApiClient env accessToken shopDomain ;;
     shopId <- resolveShopId env api shopDomain accessToken ;;
     if negb (truthy shopId) then ret (set_error register_failed data)
     else
       insightsResult <- getInsights env api (to_String shopId)
                           (params_of None (Some (Int 10)) None None None) ;;
       items <- lift (get_prop insightsResult "items") ;;
       ret (set_insights items data))
    (fun e =>
       console_error [PText "Insights loader error:"; PExn e] ;;
       ret (set_error backend_unavailable data)).

End InsightsRoute.

(* ------------------------------------------------------------------ *)
(** ** Format utilities (app/utils/format) *)

(** [formatNumber] and [formatCurrency] work on the text of a number:
    [num.toString()] and [value.toFixed(2)].  The functions on texts below
    are the code after that conversion, whatever the text.  The conversion
    itself is given for the integers a double holds exactly, those up to
    2^53 in absolute value, whose text is their decimal notation; for
    another number the functions on numbers answer [None]: its text is
    not in the model. *)

Module Format.

(** [s.split(sep)] for a one-character separator. *)
Fixpoint split (sep : ascii) (s : string) : list string :=
  match s with
  | EmptyString => [EmptyString]
  | String a rest =>
      if (a =? sep)%char then EmptyString :: split sep rest
      else match split sep rest with
           | first :: others => String a first :: others
           | [] => [String a EmptyString]
           end
  end.

(** [\d]. *)
Definition is_digit (a : ascii) : bool :=
  let n := nat_of_ascii a in ((48 <=? n) && (n <=? 57))%nat.

(** [\w]. *)
Definition is_word (a : ascii) : bool :=
  let n := nat_of_ascii a in
  (((48 <=? n) && (n <=? 57)) || ((65 <=? n) && (n <=? 90))
   || ((97 <=? n) && (n <=? 122)) || (n =? 95))%nat.

(** The number of digits a string starts with. *)
Fixpoint digit_run (s : string) : nat :=
  match s with
  | EmptyString => 0
  | String a rest => if is_digit a then S (digit_run rest) else 0
  end.

(** [(?=(\d{3})+(?!\d))] at the start of [s]: some positive number of
    groups of three digits, then no digit; that is, the digits [s] starts
    with are a positive multiple of three. *)
Definition lookahead (s : string) : bool :=
  ((0 <? digit_run s) && (digit_run s mod 3 =? 0))%nat.

(** [\B] between the character [prev] (none at the start) and [s]: both
    sides are word characters or neither is. *)
Definition not_boundary (prev : option ascii) (s : string) : bool :=
  Bool.eqb (match prev with Some a => is_word a | None => false end)
           (match s with String a _ => is_word a | EmptyString => false end).

(** [s.replace(/\B(?=(\d{3})+(?!\d))/g, ",")]: a comma goes in at every
    position where the pattern matches the empty string. *)
Fixpoint replace_from (prev : option ascii) (s : string) : string :=
  (if not_boundary prev s && lookahead s then "," else EmptyString)
  ++ match s with
     | EmptyString => EmptyString
     | String a rest => String a (replace_from (Some a) rest)
     end.

Definition add_commas (s : string) : string := replace_from None s.

(** [formatNumber] after [num.toString()]. *)
Definition formatNumber_text (text : string) : string :=
  let parts := split "." text in
  let integer := nth 0 parts EmptyString in
  let decimal := nth_error parts 1 in
  let formatted := add_commas integer in
  match decimal with
  | Some d => if d =? EmptyString then formatted else formatted ++ "." ++ d
  | None => formatted
  end.

(** The largest integer up to which every integer is a double: 2^53. *)
Definition MAX_EXACT : Z := 9007199254740992.

(** [z.toString()] for an integer a double holds exactly. *)
Definition integer_text (z : Z) : option string :=
  if (Z.abs z <=? MAX_EXACT)%Z then Some (number_to_String (Int z)) else None.

(** [formatNumber(num)]; the argument [None] is [null] or [undefined]. *)
Definition formatNumber (num : option number) : option string :=
  match num with
  | None | Some NaN => Some "0"
  | Some (Int z) => option_map formatNumber_text (integer_text z)
  end.

(** [formatCurrency] after [value.toFixed(2)]. *)
Definition formatCurrency_fixed (fixed : string) : string :=
  let parts := split "." fixed in
  let integer := nth 0 parts EmptyString in
  let decimal := nth_error parts 1 in
  let formattedInteger := add_commas integer in
  "$" ++ formattedInteger ++ "."
  ++ match decimal with Some d => d | None => "undefined" end.

(** [z.toFixed(2)] for an integer a double holds exactly. *)
Definition toFixed2 (z : Z) : option string :=
  option_map (fun text => text ++ ".00") (integer_text z).

(** [formatCurrency(value)]. *)
Definition formatCurrency (value : option number) : option string :=
  match value with
  | None | Some NaN => Some "$0.00"
  | Some (Int z) => option_map formatCurrency_fixed (toFixed2 z)
  end.

End Format.

(* ------------------------------------------------------------------ *)
(** ** Further observations *)

(** The [i]-th transport call, if it is [call], ends in a failure that the
    [catch] clause of [request] takes for a transient one. *)
Definition retried (env : Env) (call : Call) (i : nat) : bool :=
  match caught (network env i call) with
  | Some e => isRetryable e
  | None => false
  end.

(** The sum of a list of delays. *)
Definition total (delays : list Z) : Z := fold_right Z.add 0%Z delays.

(** The value an object holds for a key. *)
Fixpoint header (k : string) (o : list (string * string)) : option string :=
  match o with
  | [] => None
  | (k', v) :: rest => if k' =? k then Some v else header k rest
  end.

(** The client [createApiClient] builds. *)
Definition created_client (env : Env) (token shop : string) : ApiClient :=
  {| baseUrl := BACKEND_URL env;
     config := Some {| shopId := shop; accessToken := token |} |}.

(** A byte between two bounds. *)
Definition byte_in (lo hi : nat) (a : ascii) : bool :=
  let n := nat_of_ascii a in ((lo <=? n) && (n <=? hi))%nat.

(** The first two bytes of a three-byte and of a four-byte sequence of
    UTF-8: no overlong form, no surrogate (U+D800 to U+DFFF), nothing past
    U+10FFFF. *)
Definition three_byte_start (a b : ascii) : bool :=
  (byte_in 224 224 a && byte_in 160 191 b)
  || (byte_in 225 236 a && byte_in 128 191 b)
  || (byte_in 237 237 a && byte_in 128 159 b)
  || (byte_in 238 239 a && byte_in 128 191 b).

Definition four_byte_start (a b : ascii) : bool :=
  (byte_in 240 240 a && byte_in 144 191 b)
  || (byte_in 241 243 a && byte_in 128 191 b)
  || (byte_in 244 244 a && byte_in 128 143 b).

(** The bytes are the UTF-8 encoding of some text: they stand for a
    JavaScript string without a lone surrogate. *)
Fixpoint well_formed_utf8 (s : string) : bool :=
  match s with
  | EmptyString => true
  | String a s1 =>
      if byte_in 0 127 a then well_formed_utf8 s1
      else
        match s1 with
        | EmptyString => false
        | String b s2 =>
            if byte_in 194 223 a then byte_in 128 191 b && well_formed_utf8 s2
            else
              match s2 with
              | EmptyString => false
              | String c s3 =>
                  if three_byte_start a b
                  then byte_in 128 191 c && well_formed_utf8 s3
                  else
                    match s3 with
                    | EmptyString => false
                    | String d s4 =>
                        four_byte_start a b && byte_in 128 191 c
                        && byte_in 128 191 d && well_formed_utf8 s4
                    end
              end
        end
  end.

(** Every character of a string passes a test. *)
Fixpoint all_chars (p : ascii -> bool) (s : string) : bool :=
  match s with
  | EmptyString => true
  | String a rest => p a && all_chars p rest
  end.

(** The characters the serializer can produce. *)
Definition query_safe (a : ascii) : bool :=
  URLSearchParams.unreserved a || (a =? "+")%char || (a =? "%")%char.

(** The value of a hexadecimal digit. *)
Definition unhex (a : ascii) : option nat :=
  let n := nat_of_ascii a in
  if ((48 <=? n) && (n <=? 57))%nat then Some (n - 48)
  else if ((65 <=? n) && (n <=? 70))%nat then Some (n - 55)
  else None.

(** Reads back the first byte of an encoded string. *)
Definition decode_first (s : string) : option (ascii * string) :=
  match s with
  | EmptyString => None
  | String a rest =>
      if (a =? "%")%char then
        match rest with
        | String h (String l rest') =>
            match unhex h, unhex l with
            | Some x, Some y => Some (ascii_of_nat (16 * x + y), rest')
            | _, _ => None
            end
        | _ => None
        end
      else if (a =? "+")%char then Some (" "%char, rest)
      else Some (a, rest)
  end.

(** The part of the query after the [shop_id] pair. *)
Fixpoint query_tail (pairs : URLSearchParams.t) : string :=
  match pairs with
  | [] => EmptyString
  | (k, v) :: rest =>
      "&" ++ URLSearchParams.encode k ++ "=" ++ URLSearchParams.encode v
      ++ query_tail rest
  end.

(** The pairs [getInsights] adds after [shop_id]. *)
Definition optional_pairs (params : option InsightsParams) : URLSearchParams.t :=
  (pair_if (opt params page) VNum "page" number_to_String
   ++ pair_if (opt params pageSize) VNum "page_size" number_to_String
   ++ pair_if (opt params type) VStr "type" (fun s => s)
   ++ pair_if (opt params severity) VStr "severity" (fun s => s)
   ++ pair_if (opt params includeDismissed) VBool "include_dismissed"
        (fun _ => "true"))%list.

(** A list is another with some elements left out. *)
Fixpoint subsequence (l full : list string) : bool :=
  match l, full with
  | [], _ => true
  | _ :: _, [] => false
  | x :: l', y :: full' =>
      if x =? y then subsequence l' full' else subsequence l full'
  end.

(** The number of occurrences of a character. *)
Fixpoint count_char (c : ascii) (s : string) : nat :=
  match s with
  | EmptyString => 0
  | String a rest => (if (a =? c)%char then 1 else 0) + count_char c rest
  end.

(** A comma goes before [s] when [s] is a positive multiple of three
    characters long. *)
Definition comma_if (s : string) : string :=
  if ((0 <? String.length s) && (String.length s mod 3 =? 0))%nat
  then "," else EmptyString.

(** Thousands grouping, said directly: after each digit comes a comma when
    the digits left are a positive multiple of three. *)
Fixpoint grouped (s : string) : string :=
  match s with
  | EmptyString => EmptyString
  | String a rest => String a (comma_if rest ++ grouped rest)
  end.

(** The string without its commas. *)
Fixpoint strip_commas (s : string) : string :=
  match s with
  | EmptyString => EmptyString
  | String a rest =>
      if (a =? ",")%char then strip_commas rest else String a (strip_commas rest)
  end.

(** The decimal digits of a natural number. *)
Definition digits (z : Z) : string := number_to_String (Int (Z.abs z)).

(* ================================================================== *)
(** * Scenarios: concrete backends *)

Definition answer_always (f : Fetched) : Env :=
  {| network := fun _ _ => f; time := fun _ => 0%Z;
     BACKEND_API_URL := None; SCOPES := None |}.

(** A backend that answers every call with HTTP 405 and the JSON body
    [{}]. *)
Definition env_405 : Env :=
  answer_always (Resolved {| status := 405; body := Json (VObj []) |}).


(** The client the singleton [api] is: default base URL, no credential. *)
Definition plain_client (env : Env) : ApiClient := new_ApiClient env None.

Definition env_of (net : nat -> Call -> Fetched) (clock : nat -> Z) : Env :=
  {| network := net; time := clock; BACKEND_API_URL := None; SCOPES := None |}.

Definition timeout_error : exn :=
  ErrorObj "AbortError" "This operation was aborted".

Definition network_error : exn := ErrorObj "TypeError" "fetch failed".

(** Three timeouts, then the dashboard statistics. *)
Definition env_slow_start : Env :=
  env_of (fun n _ =>
            match n with
            | 0 | 1 | 2 => Rejected timeout_error
            | _ => Resolved {| status := 200;
                               body := Json (VObj [("totalRevenue", VNum (Int 500))]) |}
            end)
         (fun _ => 0%Z).

(** A backend whose n-th answer is HTTP 500 + n with the JSON body [{}]. *)
Definition env_rising : Env :=
  env_of (fun n _ => Resolved {| status := 500 + Z.of_nat n;
                                 body := Json (VObj []) |})
         (fun _ => 0%Z).

(** HTTP 404 with the [detail] the backend gives for an unknown shop. *)
Definition shop_not_found : Response :=
  {| status := 404; body := Json (VObj [("detail", VStr "Shop not found")]) |}.

Definition env_404_detail : Env := answer_always (Resolved shop_not_found).

(** A backend that is healthy at the first probe and unreachable at the
    second; the clock reads 1000, 50000, 70000 and 71000 ms. *)
Definition healthy_body : value :=
  VObj [("status", VStr "healthy"); ("version", VStr "1.2.0")].

Definition env_flapping : Env :=
  env_of (fun n _ =>
            match n with
            | 0 => Resolved {| status := 200; body := Json healthy_body |}
            | _ => Rejected network_error
            end)
         (fun n => nth n [1000; 50000; 70000; 71000]%Z 0%Z).

Definition first_status : HealthStatus :=
  {| healthy := true; version := VStr "1.2.0"; timestamp := 1000;
     error := None |}.

(** The world after the first, and after the second, [checkHealth]. *)
Definition world_checked_once : World :=
  snd (checkHealth env_flapping (plain_client env_flapping) initial_world).

Definition world_checked_twice : World :=
  snd (checkHealth env_flapping (plain_client env_flapping) world_checked_once).

(** A backend that never answers in time. *)
Definition env_timeout : Env := answer_always (Rejected timeout_error).

(** A backend whose health endpoint says [{"status": "ok"}]. *)
Definition ok_body : value := VObj [("status", VStr "ok")].

Definition env_status_ok : Env :=
  answer_always (Resolved {| status := 200; body := Json ok_body |}).

(** [init.method === "POST"]. *)
Definition is_post (call : Call) : bool :=
  match init_method (call_init call) with
  | Some m => m =? "POST"
  | None => false
  end.

Definition shop_body (id : string) : value :=
  VObj [("id", VStr id); ("domain", VStr "acme.myshopify.com")].

(** The backend knows the shop. *)
Definition env_known_shop : Env :=
  answer_always (Resolved {| status := 200; body := Json (shop_body "uuid-1") |}).

(** The backend does not know the shop and registers it when asked. *)
Definition env_unknown_shop : Env :=
  env_of (fun _ call =>
            if is_post call
            then Resolved {| status := 201; body := Json (shop_body "uuid-2") |}
            else Resolved shop_not_found)
         (fun _ => 0%Z).

Definition bare_500 : Response := {| status := 500; body := Json (VObj []) |}.


(** A client for another backend. *)
Definition other_client : ApiClient :=
  {| baseUrl := "https://ecomdash-app.onrender.com"; config := None |}.

(** A backend that is healthy, does not know the shop, registers it when
    asked and then lists one insight. *)
Definition one_insight : value :=
  VArr [VObj [("id", VStr "i1"); ("severity", VStr "high")]].

Definition env_first_visit : Env :=
  env_of (fun _ call =>
            if is_post call
            then Resolved {| status := 201; body := Json (shop_body "uuid-2") |}
            else if includes (call_url call) "/api/insights"
            then Resolved {| status := 200;
                             body := Json (VObj [("items", one_insight)]) |}
            else if includes (call_url call) "/health"
            then Resolved {| status := 200; body := Json healthy_body |}
            else Resolved shop_not_found)
         (fun _ => 0%Z).

Definition acme_session : InsightsRoute.Session :=
  {| InsightsRoute.shop := "acme.myshopify.com";
     InsightsRoute.session_accessToken := Some "shpat_1" |}.

(* ================================================================== *)
(** * Properties *)

(* ------------------------------------------------------------------ *)
(** ** Histories *)

Lemma calls_of_app (l l' : list IO) :
  calls_of (l ++ l') = (calls_of l ++ calls_of l')%list.
Proof.
  induction l as [|[call | ms] l IH]; simpl; [reflexivity | f_equal; exact IH | exact IH].
Qed.

Lemma slept_of_app (l l' : list IO) :
  slept_of (l ++ l') = (slept_of l ++ slept_of l')%list.
Proof.
  induction l as [|[call | ms] l IH]; simpl; [reflexivity | exact IH | f_equal; exact IH].
Qed.

(* ------------------------------------------------------------------ *)
(** ** [request] *)

Section RequestFacts.

Variable env : Env.
Variable c : ApiClient.
Variable endpoint : string.
Variable options : RequestInit.

Let call := request_call c endpoint options.

Lemma request_try_run (w : World) :
  request_try env c endpoint options w =
  (match next_answer env w call with
   | Rejected e => Throw e
   | Resolved r =>
       if ok r then Return (response_json r) else Throw (http_error r)
   end, add_call call w).
Proof.
  unfold request_try, bind, fetchWithTimeout, next_answer, add_call.
  fold (request_call c endpoint options). fold call.
  destruct (network env (length (calls w)) call) as [e | r]; [reflexivity|].
  unfold http_error, try_catch, response_json, lift, throw, ret.
  destruct (ok r); simpl; [reflexivity|].
  destruct (body r) as [v | e]; simpl.
  - destruct (get_prop v "detail"); reflexivity.
  - reflexivity.
Qed.

(** One turn of the retry loop. *)
Lemma request_step (retryCount : nat) (w : World) :
  request env c endpoint options retryCount w =
  match caught (next_answer env w call) with
  | None => (attempt_result (next_answer env w call), add_call call w)
  | Some e =>
      if (retryCount <? MAX_RETRIES)%nat && isRetryable e then
        (console_warn
           [PText ("API request failed, retrying ("
                   ++ number_to_String (Int (Z.of_nat (retryCount + 1)))
                   ++ "/" ++ number_to_String (Int (Z.of_nat MAX_RETRIES))
                   ++ "):");
            PText endpoint] ;;
         sleep (nth retryCount RETRY_DELAYS 0%Z) ;;
         request env c endpoint options (retryCount + 1)) (add_call call w)
      else
        (console_error
           [PText ("API request failed after "
                   ++ number_to_String (Int (Z.of_nat retryCount)) ++ " retries:");
            PText endpoint; PExn e] ;;
         throw e) (add_call call w)
  end.
Proof.
  rewrite request_equation_1.
  unfold bind at 1. unfold try_catch at 1. rewrite request_try_run.
  unfold caught, attempt_result.
  destruct (next_answer env w call) as [e | r].
  - destruct (lt_dec retryCount MAX_RETRIES) as [Hlt | Hge].
    + apply Nat.ltb_lt in Hlt. rewrite Hlt. simpl andb.
      destruct (isRetryable e); [|unfold bind, console_error, throw; reflexivity].
      unfold bind, console_warn, sleep, ret. reflexivity.
    + apply Nat.ltb_nlt in Hge. rewrite Hge. simpl andb.
      unfold bind, console_error, throw. reflexivity.
  - destruct (ok r).
    + unfold response_json. destruct (body r); reflexivity.
    + destruct (lt_dec retryCount MAX_RETRIES) as [Hlt | Hge].
      * apply Nat.ltb_lt in Hlt. rewrite Hlt. simpl andb.
        destruct (isRetryable (http_error r));
          [|unfold bind, console_error, throw; reflexivity].
        unfold bind, console_warn, sleep, ret. reflexivity.
      * apply Nat.ltb_nlt in Hge. rewrite Hge. simpl andb.
        unfold bind, console_error, throw. reflexivity.
Qed.

Lemma caught_attempt_result (f : Fetched) (e : exn) :
  caught f = Some e -> attempt_result f = Throw e.
Proof.
  destruct f as [e' | r]; simpl.
  - intros [= ->]. reflexivity.
  - destruct (ok r); [discriminate|]. intros [= ->]. reflexivity.
Qed.

Lemma warn_sleep_then {A} (args : list Printed) (ms : Z) (m : M A) (w : World) :
  (console_warn args ;; sleep ms ;; m) w
  = m (set_io (io w ++ [Sleep ms]) (set_console (console w ++ [Warn args]) w)).
Proof. reflexivity. Qed.

Lemma skipn_cons_nth (k : nat) (l : list Z) :
  k < length l -> skipn k l = nth k l 0%Z :: skipn (k + 1) l.
Proof.
  revert l. induction k as [|k IH]; intros [|x l] Hk; simpl in *; try lia.
  - reflexivity.
  - apply IH. lia.
Qed.

(** The whole run of [request] from retry counter [retryCount]: a first
    attempt, then [n] retries, each after the delay the schedule gives it;
    the health cache and the clock are left alone, and the run settles to
    what its last attempt settles to. *)
Lemma request_trace (d : nat) :
  forall (retryCount : nat) (w : World),
    MAX_RETRIES - retryCount = d ->
    exists n : nat,
      n <= d /\
      io (snd (request env c endpoint options retryCount w))
        = (io w ++ Fetch call
             :: retries call (firstn n (skipn retryCount RETRY_DELAYS)))%list /\
      healthCache (snd (request env c endpoint options retryCount w))
        = healthCache w /\
      clock_reads (snd (request env c endpoint options retryCount w))
        = clock_reads w /\
      fst (request env c endpoint options retryCount w)
        = attempt_result (network env (length (calls w) + n) call).
Proof.
  induction d as [|d IH]; intros retryCount w Hd; rewrite request_step;
    unfold next_answer;
    destruct (caught (network env (length (calls w)) call)) as [e|] eqn:Hc.
  - (* counter exhausted, failure *)
    assert (Hk : (retryCount <? MAX_RETRIES)%nat = false)
      by (apply Nat.ltb_ge; lia).
    rewrite Hk. simpl andb. cbv iota.
    exists 0. simpl. rewrite Nat.add_0_r.
    rewrite (caught_attempt_result _ Hc). repeat split; lia.
  - exists 0. simpl. rewrite Nat.add_0_r. repeat split; lia.
  - destruct ((retryCount <? MAX_RETRIES)%nat && isRetryable e) eqn:Hretry.
    + apply andb_prop in Hretry. destruct Hretry as [Hlt _].
      apply Nat.ltb_lt in Hlt.
      rewrite warn_sleep_then.
      match goal with
      | |- context [request env c endpoint options (retryCount + 1) ?w2] =>
          remember w2 as w' eqn:Hw'
      end.
      assert (Hio : io w' = (io w ++ [Fetch call; Sleep (nth retryCount RETRY_DELAYS 0%Z)])%list)
        by (subst w'; simpl; rewrite <- app_assoc; reflexivity).
      assert (Hh' : healthCache w' = healthCache w) by (subst w'; reflexivity).
      assert (Hr' : clock_reads w' = clock_reads w) by (subst w'; reflexivity).
      assert (Hlen : length (calls w') = S (length (calls w))).
      { unfold calls. rewrite Hio, calls_of_app, length_app. simpl. lia. }
      clear Hw'.
      destruct (IH (retryCount + 1) w')
        as (n & Hn & Htrace & Hh & Hr & Hres); [lia|].
      exists (S n).
      rewrite Htrace, Hh, Hr, Hres, Hio, Hh', Hr', Hlen.
      repeat split; try lia.
      * rewrite <- app_assoc.
        rewrite (@skipn_cons_nth retryCount RETRY_DELAYS) by exact Hlt.
        reflexivity.
      * f_equal. f_equal. lia.
    + exists 0. simpl. rewrite Nat.add_0_r.
      rewrite (caught_attempt_result _ Hc). repeat split; lia.
  - exists 0. simpl. rewrite Nat.add_0_r. repeat split; lia.
Qed.

End RequestFacts.

Lemma calls_of_retries (call : Call) (delays : list Z) :
  calls_of (retries call delays) = repeat call (length delays).
Proof.
  induction delays as [|ms delays IH]; simpl; [reflexivity | f_equal; exact IH].
Qed.

Lemma slept_of_retries (call : Call) (delays : list Z) :
  slept_of (retries call delays) = delays.
Proof.
  induction delays as [|ms delays IH]; simpl; [reflexivity | f_equal; exact IH].
Qed.

(** The number of transport calls of a run with [n] retries. *)
Lemma calls_after_trace (w w' : World) (call : Call) (delays : list Z) :
  io w' = (io w ++ Fetch call :: retries call delays)%list ->
  calls w' = (calls w ++ repeat call (S (length delays)))%list.
Proof.
  intros H. unfold calls. rewrite H, calls_of_app. simpl.
  rewrite calls_of_retries. reflexivity.
Qed.

(** C2.  Every call of [request] makes a first attempt and then at most
    [3 - retryCount] retries, so at most 4 attempts in all (callers start
    at retry counter 0) and none once the counter has reached 3: its
    history is the first transport call followed, for each retry, by one
    wait and one transport call, and the waits are the leading entries of
    1000, 2000, 4000 ms from position [retryCount] on, in that order. *)
Theorem request_attempts_and_delays :
  forall (env : Env) (c : ApiClient) (endpoint : string)
         (options : RequestInit) (retryCount : nat) (w : World),
  exists n : nat,
    n <= 3 - retryCount /\
    io (snd (request env c endpoint options retryCount w))
    = (io w ++ Fetch (request_call c endpoint options)
         :: retries (request_call c endpoint options)
              (firstn n (skipn retryCount [1000; 2000; 4000]%Z)))%list /\
    length (calls (snd (request env c endpoint options retryCount w)))
    = length (calls w) + 1 + n /\
    length (calls (snd (request env c endpoint options retryCount w)))
    <= length (calls w) + 4.
Proof.
  intros env c endpoint options retryCount w.
  destruct (@request_trace env c endpoint options (MAX_RETRIES - retryCount)
              retryCount w eq_refl) as (n & Hn & Htrace & _).
  exists n. split; [exact Hn|]. split; [exact Htrace|].
  assert (Hlen : length (calls (snd (request env c endpoint options retryCount w)))
                 = length (calls w) + 1 + n).
  { rewrite (@calls_after_trace _ _ _ _ Htrace), length_app, repeat_length.
    assert (Hf : length (firstn n (skipn retryCount RETRY_DELAYS)) = n).
    { rewrite length_firstn, length_skipn.
      change (length RETRY_DELAYS) with 3. unfold MAX_RETRIES in Hn. lia. }
    rewrite Hf. lia. }
  split; [exact Hlen|]. rewrite Hlen. unfold MAX_RETRIES in Hn. lia.
Qed.

(** C3.  When all four attempts of a call of [request] are made and the
    fourth fails with [e], the call fails with exactly [e]. *)
Theorem request_exhausted_error :
  forall (env : Env) (c : ApiClient) (endpoint : string)
         (options : RequestInit) (w : World) (e : exn),
    length (calls (snd (request env c endpoint options 0 w)))
    = length (calls w) + 4 ->
    attempt_result
      (network env (length (calls w) + 3) (request_call c endpoint options))
    = Throw e ->
    fst (request env c endpoint options 0 w) = Throw e.
Proof.
  intros env c endpoint options w e Hfour Hlast.
  destruct (@request_trace env c endpoint options MAX_RETRIES 0 w eq_refl)
    as (n & Hn & Htrace & _ & _ & Hres).
  assert (Hlen : length (calls (snd (request env c endpoint options 0 w)))
                 = length (calls w) + 1 + n).
  { rewrite (@calls_after_trace _ _ _ _ Htrace), length_app, repeat_length.
    rewrite length_firstn, length_skipn.
    change (length RETRY_DELAYS) with 3. unfold MAX_RETRIES in Hn. lia. }
  assert (n = 3) by lia. subst n.
  rewrite Hres. exact Hlast.
Qed.

(** [request] surfaces the failure of an attempt as it is whenever it does
    not retry. *)
Lemma request_rethrows (env : Env) (c : ApiClient) (endpoint : string)
    (options : RequestInit) (retryCount : nat) (w : World) (e : exn) :
  caught (next_answer env w (request_call c endpoint options)) = Some e ->
  (retryCount <? MAX_RETRIES)%nat && isRetryable e = false ->
  fst (request env c endpoint options retryCount w) = Throw e
  /\ io (snd (request env c endpoint options retryCount w))
     = (io w ++ [Fetch (request_call c endpoint options)])%list.
Proof.
  intros Hc Hno. rewrite request_step, Hc, Hno. split; reflexivity.
Qed.

(** [request] retries exactly when the counter is below [MAX_RETRIES] and
    the failure passes [isRetryable]. *)
Lemma request_retries (env : Env) (c : ApiClient) (endpoint : string)
    (options : RequestInit) (retryCount : nat) (w : World) (e : exn) :
  caught (next_answer env w (request_call c endpoint options)) = Some e ->
  (retryCount <? MAX_RETRIES)%nat && isRetryable e = true ->
  request env c endpoint options retryCount w
  = request env c endpoint options (retryCount + 1)
      (set_io (io w ++ [Fetch (request_call c endpoint options);
                        Sleep (nth retryCount RETRY_DELAYS 0%Z)])
         (set_console
            (console w ++
             [Warn [PText ("API request failed, retrying ("
                           ++ number_to_String (Int (Z.of_nat (retryCount + 1)))
                           ++ "/" ++ number_to_String (Int (Z.of_nat MAX_RETRIES))
                           ++ "):");
                    PText endpoint]]) w)).
Proof.
  intros Hc Hyes. rewrite request_step, Hc, Hyes, warn_sleep_then.
  unfold add_call, set_io, set_console. simpl. rewrite <- app_assoc. reflexivity.
Qed.

(** C1 (the code departs from it).  An HTTP 405 whose body carries no
    [detail] gives the message "API error: 405", which contains a "5":
    [request] takes it for a 5xx error, waits 1000, 2000 and 4000 ms and
    issues four transport calls before it fails. *)
Theorem request_retries_http_405 :
  isRetryable (ErrorObj "Error" "API error: 405") = true
  /\ fst (request env_405 (plain_client env_405) "/api/shops/acme" no_options 0
            initial_world)
     = Throw (ErrorObj "Error" "API error: 405")
  /\ length (calls (snd (request env_405 (plain_client env_405) "/api/shops/acme"
                           no_options 0 initial_world))) = 4
  /\ slept (snd (request env_405 (plain_client env_405) "/api/shops/acme"
                   no_options 0 initial_world)) = [1000; 2000; 4000]%Z.
Proof. vm_compute. repeat split; reflexivity. Qed.

(** An HTTP 500 whose body carries the usual [detail] is not retried: its
    message holds no "5". *)
Example request_gives_up_on_http_500 :
  let env := answer_always
               (Resolved {| status := 500;
                            body := Json (VObj [("detail", VStr "Internal Server Error")]) |}) in
  fst (request env (plain_client env) "/api/shops/acme" no_options 0 initial_world)
  = Throw (ErrorObj "Error" "Internal Server Error")
  /\ length (calls (snd (request env (plain_client env) "/api/shops/acme"
                           no_options 0 initial_world))) = 1.
Proof. vm_compute. split; reflexivity. Qed.

(** A body that is not JSON on a successful response is a failure that is
    not retried, whatever its message: the promise of [response.json()]
    leaves the [try] block unawaited. *)
Lemma request_decode_error_not_retried (env : Env) (c : ApiClient)
    (endpoint : string) (options : RequestInit) (retryCount : nat)
    (w : World) (r : Response) (e : exn) :
  next_answer env w (request_call c endpoint options) = Resolved r ->
  ok r = true ->
  body r = Malformed e ->
  request env c endpoint options retryCount w
  = (Throw e, add_call (request_call c endpoint options) w).
Proof.
  intros Hnet Hok Hbody. rewrite request_step, Hnet. simpl.
  rewrite Hok, Hbody. reflexivity.
Qed.


(** Reading [detail] off a parsed body other than [null] never throws. *)
Lemma get_prop_defined (v : value) (key : string) :
  v <> VNull -> v <> VUndefined -> exists x : value, get_prop v key = Return x.
Proof.
  intros Hnull Hundef. destruct v; simpl; try (eexists; reflexivity);
    contradiction.
Qed.

(** A non-2xx answer whose body is the JSON [null]: reading [detail] throws
    inside the [try] block, and [request] fails at once with that
    [TypeError], whatever the status. *)
Lemma request_null_error_body (env : Env) (c : ApiClient) (endpoint : string)
    (options : RequestInit) (retryCount : nat) (w : World) (r : Response) :
  next_answer env w (request_call c endpoint options) = Resolved r ->
  ok r = false ->
  body r = Json VNull ->
  fst (request env c endpoint options retryCount w)
  = Throw (ErrorObj "TypeError"
             "Cannot read properties of null (reading 'detail')")
  /\ io (snd (request env c endpoint options retryCount w))
     = (io w ++ [Fetch (request_call c endpoint options)])%list.
Proof.
  intros Hnet Hok Hbody.
  apply (@request_rethrows env c endpoint options retryCount w).
  - rewrite Hnet. simpl. rewrite Hok. unfold http_error. rewrite Hbody.
    reflexivity.
  - apply andb_false_iff. right. reflexivity.
Qed.


Example getDashboardStats_after_three_timeouts :
  let run := getDashboardStats env_slow_start (plain_client env_slow_start) "s1"
               initial_world in
  fst run = Return (VObj [("totalRevenue", VNum (Int 500))])
  /\ length (calls (snd run)) = 4
  /\ slept (snd run) = [1000; 2000; 4000]%Z.
Proof. vm_compute. repeat split; reflexivity. Qed.

(** HTTP 400 with a [detail]: one attempt, no wait. *)
Example request_fails_at_once_on_http_400 :
  let env := answer_always
               (Resolved {| status := 400;
                            body := Json (VObj [("detail", VStr "Bad request")]) |}) in
  let run := request env (plain_client env) "/api/insights/i1" no_options 0
               initial_world in
  fst run = Throw (ErrorObj "Error" "Bad request")
  /\ length (calls (snd run)) = 1
  /\ slept (snd run) = [].
Proof. vm_compute. repeat split; reflexivity. Qed.

Lemma request_exhausted_error_witness :
  length (calls (snd (request env_rising (plain_client env_rising)
                        "/api/dashboard/stats?shop_id=s1" no_options 0
                        initial_world)))
  = length (calls initial_world) + 4
  /\ attempt_result
       (network env_rising (length (calls initial_world) + 3)
          (request_call (plain_client env_rising)
             "/api/dashboard/stats?shop_id=s1" no_options))
     = Throw (ErrorObj "Error" "API error: 503")
  /\ fst (request env_rising (plain_client env_rising)
            "/api/dashboard/stats?shop_id=s1" no_options 0 initial_world)
     = Throw (ErrorObj "Error" "API error: 503").
Proof.
  assert (Hfour :
            length (calls (snd (request env_rising (plain_client env_rising)
                                  "/api/dashboard/stats?shop_id=s1" no_options 0
                                  initial_world)))
            = length (calls initial_world) + 4)
    by (vm_compute; reflexivity).
  assert (Hlast :
            attempt_result
              (network env_rising (length (calls initial_world) + 3)
                 (request_call (plain_client env_rising)
                    "/api/dashboard/stats?shop_id=s1" no_options))
            = Throw (ErrorObj "Error" "API error: 503"))
    by (vm_compute; reflexivity).
  split; [exact Hfour|]. split; [exact Hlast|].
  exact (@request_exhausted_error env_rising (plain_client env_rising)
           "/api/dashboard/stats?shop_id=s1" no_options initial_world
           (ErrorObj "Error" "API error: 503") Hfour Hlast).
Defined.


(* ------------------------------------------------------------------ *)
(** ** [checkHealth] *)

Lemma checkHealth_hit (env : Env) (c : ApiClient) (w : World) :
  cache_valid env w = true ->
  checkHealth env c w = (Return (healthCache w), after_guard w).
Proof.
  unfold cache_valid, checkHealth, after_guard, bind, read_healthCache, Date_now, ret.
  destruct (healthCache w) as [h|] eqn:Hh; [|discriminate].
  intros Hv. simpl. rewrite Hv. reflexivity.
Qed.

Lemma checkHealth_miss (env : Env) (c : ApiClient) (w : World) :
  cache_valid env w = false ->
  let w1 := add_call (health_call c) (after_guard w) in
  let fresh := probe_status (next_answer env w (health_call c))
                 (time env (clock_reads w1)) in
  checkHealth env c w
  = (Return (Some fresh),
     set_healthCache (Some fresh) (set_clock_reads (S (clock_reads w1)) w1)).
Proof.
  intros Hv w1 fresh.
  assert (Hstart :
            checkHealth env c w
            = (try_catch
                 (response <- fetchWithTimeout env (baseUrl c ++ "/health")
                                {| init_method := Some "GET"; init_headers := [];
                                   init_body := None |} 5000 ;;
                  if ok response then
                    data <- response_json response ;;
                    data_status <- lift (get_prop data "status") ;;
                    data_version <- lift (get_prop data "version") ;;
                    now <- Date_now env ;;
                    write_healthCache
                      {| healthy := strict_eq_string data_status "healthy";
                         version := or_else data_version (VStr "unknown");
                         timestamp := now;
                         error := None |}
                  else
                    now <- Date_now env ;;
                    write_healthCache
                      {| healthy := false;
                         version := VStr "unknown";
                         timestamp := now;
                         error := Some ("HTTP " ++ number_to_String (Int (status response))) |})
                 (fun e =>
                    now <- Date_now env ;;
                    write_healthCache
                      {| healthy := false;
                         version := VStr "unknown";
                         timestamp := now;
                         error := Some (message_or "Unknown error" e) |}) ;;
               read_healthCache) (after_guard w)).
  { unfold cache_valid in Hv. unfold checkHealth, after_guard.
    unfold bind at 1. unfold read_healthCache at 1.
    destruct (healthCache w) as [h|] eqn:Hh.
    - unfold bind at 1. unfold bind at 1. unfold Date_now at 1.
      unfold ret at 1. rewrite Hv. reflexivity.
    - unfold bind at 1. unfold ret at 1. reflexivity. }
  rewrite Hstart. clear Hstart.
  assert (Hcalls : calls (after_guard w) = calls w)
    by (unfold after_guard; destruct (healthCache w); reflexivity).
  unfold fresh, w1, next_answer, probe_status, probe_failure.
  unfold bind, try_catch, fetchWithTimeout, add_call.
  fold (health_call c). rewrite <- Hcalls. unfold calls.
  destruct (network env (length (calls_of (io (after_guard w)))) (health_call c))
    as [e | [st [v | e]]]; simpl.
  - reflexivity.
  - destruct (ok {| status := st; body := Json v |}); simpl; [|reflexivity].
    destruct v; simpl; reflexivity.
  - destruct (ok {| status := st; body := Malformed e |}); simpl; reflexivity.
Qed.

Lemma strict_eq_string_true (a : value) (lit : string) :
  strict_eq_string a lit = true <-> a = VStr lit.
Proof.
  destruct a; simpl; try (split; [discriminate | intros [=]]).
  rewrite String.eqb_eq. split; [intros ->; reflexivity | intros [= ->]; reflexivity].
Qed.

Lemma probe_status_timestamp (f : Fetched) (now : Z) :
  timestamp (probe_status f now) = now.
Proof.
  unfold probe_status. destruct (probe_failure f); [reflexivity|].
  destruct f as [e | [st [[| | | | | |] | e]]]; reflexivity.
Qed.

Lemma probe_status_failed (f : Fetched) (now : Z) (reason : string) :
  probe_failure f = Some reason ->
  healthy (probe_status f now) = false
  /\ version (probe_status f now) = VStr "unknown"
  /\ error (probe_status f now) = Some reason.
Proof.
  intros H. unfold probe_status. rewrite H. repeat split.
Qed.

Lemma probe_status_answered (f : Fetched) (now : Z) :
  probe_failure f = None ->
  exists (r : Response) (v data_status : value),
    f = Resolved r /\ ok r = true /\ body r = Json v
    /\ get_prop v "status" = Return data_status
    /\ healthy (probe_status f now) = strict_eq_string data_status "healthy"
    /\ error (probe_status f now) = None.
Proof.
  unfold probe_status.
  destruct f as [e | [st [v | e]]]; simpl; [discriminate | |].
  - destruct (ok {| status := st; body := Json v |}) eqn:Hok; [|discriminate].
    destruct (get_prop v "status") as [s|e] eqn:Hs; [|discriminate].
    intros _. exists {| status := st; body := Json v |}, v, s.
    repeat split; try assumption.
    + destruct v; simpl in Hs; try discriminate; injection Hs as <-; reflexivity.
    + destruct v; reflexivity.
  - destruct (ok {| status := st; body := Malformed e |}); discriminate.
Qed.

(** C5.  [checkHealth] answers from the cache, without any transport call,
    when a cached status exists and the clock is less than 60000 ms past
    its timestamp.  Otherwise it issues exactly one probe and replaces the
    cache by a status built from that probe and stamped with the clock read
    made after it; a failed probe leaves [healthy = false] and its reason
    in [error]. *)
Theorem checkHealth_cache_policy :
  forall (env : Env) (c : ApiClient) (w : World),
    (forall h : HealthStatus,
        healthCache w = Some h ->
        (time env (clock_reads w) - timestamp h < 60000)%Z ->
        fst (checkHealth env c w) = Return (Some h)
        /\ io (snd (checkHealth env c w)) = io w
        /\ healthCache (snd (checkHealth env c w)) = Some h)
    /\ (healthCache w = None
        \/ (exists h : HealthStatus,
               healthCache w = Some h
               /\ (60000 <= time env (clock_reads w) - timestamp h)%Z) ->
        exists fresh : HealthStatus,
          fst (checkHealth env c w) = Return (Some fresh)
          /\ healthCache (snd (checkHealth env c w)) = Some fresh
          /\ io (snd (checkHealth env c w)) = (io w ++ [Fetch (health_call c)])%list
          /\ fresh = probe_status (next_answer env w (health_call c))
                       (time env (clock_reads (after_guard w)))
          /\ timestamp fresh = time env (clock_reads (after_guard w))
          /\ (forall reason : string,
                 probe_failure (next_answer env w (health_call c)) = Some reason ->
                 healthy fresh = false /\ error fresh = Some reason)).
Proof.
  intros env c w. split.
  - intros h Hh Hlt.
    assert (Hv : cache_valid env w = true).
    { unfold cache_valid. rewrite Hh. apply Z.ltb_lt. exact Hlt. }
    rewrite (@checkHealth_hit env c w Hv). unfold after_guard. rewrite Hh.
    repeat split; assumption.
  - intros Hstale.
    assert (Hv : cache_valid env w = false).
    { unfold cache_valid. destruct Hstale as [Hnone | (h & Hh & Hge)].
      - rewrite Hnone. reflexivity.
      - rewrite Hh. apply Z.ltb_ge. exact Hge. }
    rewrite (@checkHealth_miss env c w Hv). cbv zeta. simpl fst. simpl snd.
    eexists. split; [reflexivity|]. split; [reflexivity|].
    split; [unfold after_guard; destruct (healthCache w); reflexivity|].
    split; [reflexivity|].
    split; [apply probe_status_timestamp|].
    intros reason Hfail.
    destruct (@probe_status_failed _ (time env (clock_reads (after_guard w))) _ Hfail)
      as (H1 & _ & H3).
    split; assumption.
Qed.

(** C6.  [checkHealth] always returns a status and never throws.  When it
    probes, a rejected transport call (timeout, network error), a response
    that is not 2xx and a 2xx response whose body cannot be read as JSON
    (or is [null]) each give [healthy = false] with the failure in
    [error]. *)
Theorem checkHealth_never_throws :
  forall (env : Env) (c : ApiClient) (w : World),
  exists h : HealthStatus,
    fst (checkHealth env c w) = Return (Some h)
    /\ (cache_valid env w = false ->
        (forall e : exn,
            next_answer env w (health_call c) = Rejected e ->
            healthy h = false
            /\ error h = Some (message_or "Unknown error" e))
        /\ (forall r : Response,
               next_answer env w (health_call c) = Resolved r ->
               ok r = false ->
               healthy h = false
               /\ error h = Some ("HTTP " ++ number_to_String (Int (status r))))
        /\ (forall (r : Response) (e : exn),
               next_answer env w (health_call c) = Resolved r ->
               ok r = true ->
               body r = Malformed e ->
               healthy h = false
               /\ error h = Some (message_or "Unknown error" e))
        /\ (forall (r : Response) (v : value) (e : exn),
               next_answer env w (health_call c) = Resolved r ->
               ok r = true ->
               body r = Json v ->
               get_prop v "status" = Throw e ->
               healthy h = false
               /\ error h = Some (message_or "Unknown error" e))).
Proof.
  intros env c w. destruct (cache_valid env w) eqn:Hv.
  - rewrite (@checkHealth_hit env c w Hv). unfold cache_valid in Hv.
    destruct (healthCache w) as [h|]; [|discriminate].
    exists h. split; [reflexivity | discriminate].
  - rewrite (@checkHealth_miss env c w Hv). cbv zeta. simpl fst.
    eexists. split; [reflexivity|]. intros _.
    assert (Hfailed :
              forall reason : string,
                probe_failure (next_answer env w (health_call c)) = Some reason ->
                healthy (probe_status (next_answer env w (health_call c))
                           (time env (clock_reads (add_call (health_call c) (after_guard w)))))
                = false
                /\ error (probe_status (next_answer env w (health_call c))
                            (time env (clock_reads (add_call (health_call c) (after_guard w)))))
                   = Some reason).
    { intros reason Hfail.
      destruct (@probe_status_failed _
                  (time env (clock_reads (add_call (health_call c) (after_guard w))))
                  _ Hfail) as (H1 & _ & H3).
      split; assumption. }
    split; [|split; [|split]].
    + intros e Hnet. apply Hfailed. rewrite Hnet. reflexivity.
    + intros r Hnet Hok. apply Hfailed. rewrite Hnet. simpl. rewrite Hok.
      reflexivity.
    + intros r e Hnet Hok Hbody. apply Hfailed. rewrite Hnet. simpl.
      rewrite Hok, Hbody. reflexivity.
    + intros r v e Hnet Hok Hbody Hstatus. apply Hfailed. rewrite Hnet. simpl.
      rewrite Hok, Hbody, Hstatus. reflexivity.
Qed.

(** C9.  A probe reports [healthy = true] only for a 2xx response whose
    parsed body has a [status] field that is exactly the string "healthy";
    a 2xx response whose body has any other [status] gives
    [healthy = false] and no [error]. *)
Theorem checkHealth_healthy_iff :
  forall (env : Env) (c : ApiClient) (w : World),
    cache_valid env w = false ->
    exists h : HealthStatus,
      fst (checkHealth env c w) = Return (Some h)
      /\ (healthy h = true <->
          exists (r : Response) (v : value),
            next_answer env w (health_call c) = Resolved r
            /\ ok r = true
            /\ body r = Json v
            /\ get_prop v "status" = Return (VStr "healthy"))
      /\ (forall (r : Response) (v data_status : value),
             next_answer env w (health_call c) = Resolved r ->
             ok r = true ->
             body r = Json v ->
             get_prop v "status" = Return data_status ->
             data_status <> VStr "healthy" ->
             healthy h = false /\ error h = None).
Proof.
  intros env c w Hv. rewrite (@checkHealth_miss env c w Hv). cbv zeta. simpl fst.
  eexists. split; [reflexivity|].
  set (f := next_answer env w (health_call c)).
  set (now := time env (clock_reads (after_guard w))).
  destruct (probe_failure f) as [reason|] eqn:Hfail.
  - destruct (@probe_status_failed f now reason Hfail) as (Hh & _ & He).
    split.
    + rewrite Hh. split; [discriminate|].
      intros (r & v & Hnet & Hok & Hbody & Hstatus).
      unfold probe_failure in Hfail.
      rewrite Hnet, Hok, Hbody, Hstatus in Hfail. discriminate.
    + intros r v s Hnet Hok Hbody Hstatus _.
      unfold probe_failure in Hfail.
      rewrite Hnet, Hok, Hbody, Hstatus in Hfail. discriminate.
  - destruct (@probe_status_answered f now Hfail)
      as (r & v & s & Hnet & Hok & Hbody & Hstatus & Hh & He).
    split.
    + rewrite Hh, strict_eq_string_true. split.
      * intros ->. exists r, v. repeat split; assumption.
      * intros (r' & v' & Hnet' & _ & Hbody' & Hstatus').
        rewrite Hnet in Hnet'. injection Hnet' as <-.
        rewrite Hbody in Hbody'. injection Hbody' as <-.
        rewrite Hstatus in Hstatus'. injection Hstatus' as ->. reflexivity.
    + intros r' v' s' Hnet' _ Hbody' Hstatus' Hne.
      rewrite Hnet in Hnet'. injection Hnet' as <-.
      rewrite Hbody in Hbody'. injection Hbody' as <-.
      rewrite Hstatus in Hstatus'. injection Hstatus' as <-.
      split; [|exact He].
      rewrite Hh. destruct (strict_eq_string s "healthy") eqn:Hs; [|reflexivity].
      apply strict_eq_string_true in Hs. contradiction.
Qed.

(** Two checks within the minute share one probe; a third check after the
    minute probes again and overwrites the cache although the probe
    fails. *)
Example checkHealth_three_checks :
  fst (checkHealth env_flapping (plain_client env_flapping) initial_world)
  = Return (Some first_status)
  /\ length (calls world_checked_once) = 1
  /\ fst (checkHealth env_flapping (plain_client env_flapping) world_checked_once)
     = Return (Some first_status)
  /\ length (calls world_checked_twice) = 1
  /\ fst (checkHealth env_flapping (plain_client env_flapping) world_checked_twice)
     = Return (Some {| healthy := false; version := VStr "unknown";
                       timestamp := 71000; error := Some "fetch failed" |})
  /\ length (calls (snd (checkHealth env_flapping (plain_client env_flapping)
                           world_checked_twice))) = 2.
Proof. vm_compute. repeat split; reflexivity. Qed.

Lemma checkHealth_cache_policy_witness :
  (fst (checkHealth env_flapping (plain_client env_flapping) world_checked_once)
   = Return (Some first_status)
   /\ io (snd (checkHealth env_flapping (plain_client env_flapping)
                 world_checked_once))
      = io world_checked_once)
  /\ (exists fresh : HealthStatus,
         fst (checkHealth env_flapping (plain_client env_flapping)
                world_checked_twice)
         = Return (Some fresh)
         /\ healthCache (snd (checkHealth env_flapping (plain_client env_flapping)
                                world_checked_twice))
            = Some fresh
         /\ io (snd (checkHealth env_flapping (plain_client env_flapping)
                       world_checked_twice))
            = (io world_checked_twice
                 ++ [Fetch (health_call (plain_client env_flapping))])%list
         /\ healthy fresh = false
         /\ error fresh = Some "fetch failed").
Proof.
  split.
  - destruct (checkHealth_cache_policy env_flapping (plain_client env_flapping)
                world_checked_once) as [Hhit _].
    assert (Hcached : healthCache world_checked_once = Some first_status)
      by (vm_compute; reflexivity).
    assert (Hyoung :
              (time env_flapping (clock_reads world_checked_once)
               - timestamp first_status < 60000)%Z)
      by (vm_compute; reflexivity).
    destruct (Hhit first_status Hcached Hyoung) as (Hres & Hio & _).
    split; [exact Hres | exact Hio].
  - destruct (checkHealth_cache_policy env_flapping (plain_client env_flapping)
                world_checked_twice) as [_ Hmiss].
    assert (Hstale :
              healthCache world_checked_twice = None
              \/ (exists h : HealthStatus,
                     healthCache world_checked_twice = Some h
                     /\ (60000 <= time env_flapping (clock_reads world_checked_twice)
                                  - timestamp h)%Z)).
    { right. exists first_status. split; vm_compute; [reflexivity | discriminate]. }
    destruct (Hmiss Hstale) as (fresh & Hres & Hcache & Hio & _ & _ & Hfail).
    exists fresh. split; [exact Hres|]. split; [exact Hcache|].
    split; [exact Hio|]. exact (Hfail "fetch failed" eq_refl).
Defined.

Lemma checkHealth_never_throws_witness :
  exists h : HealthStatus,
    fst (checkHealth env_timeout (plain_client env_timeout) initial_world)
    = Return (Some h)
    /\ healthy h = false
    /\ error h = Some "This operation was aborted".
Proof.
  destruct (checkHealth_never_throws env_timeout (plain_client env_timeout)
              initial_world) as (h & Hret & Hfail).
  destruct (Hfail eq_refl) as (Hrejected & _).
  exists h. split; [exact Hret|].
  exact (Hrejected timeout_error eq_refl).
Defined.

Lemma checkHealth_healthy_iff_witness :
  exists h : HealthStatus,
    fst (checkHealth env_status_ok (plain_client env_status_ok) initial_world)
    = Return (Some h)
    /\ healthy h = false
    /\ error h = None.
Proof.
  destruct (@checkHealth_healthy_iff env_status_ok (plain_client env_status_ok)
              initial_world eq_refl) as (h & Hret & _ & Hother).
  exists h. split; [exact Hret|].
  apply (Hother {| status := 200; body := Json ok_body |} ok_body (VStr "ok"));
    try reflexivity.
  discriminate.
Defined.

(* ------------------------------------------------------------------ *)
(** ** The health cache over a whole session *)

Lemma after_guard_healthCache (w : World) :
  healthCache (after_guard w) = healthCache w.
Proof. unfold after_guard. destruct (healthCache w) eqn:E; [exact E | exact E]. Qed.

Lemma after_guard_io (w : World) : io (after_guard w) = io w.
Proof. unfold after_guard. destruct (healthCache w); reflexivity. Qed.

Lemma cache_justified_extend (env : Env) (w w' : World) (more : list Call) :
  healthCache w' = healthCache w ->
  calls w' = (calls w ++ more)%list ->
  cache_justified env w -> cache_justified env w'.
Proof.
  intros Hcache Hcalls Hw h Hh Hhealthy. rewrite Hcache in Hh.
  destruct (Hw h Hh Hhealthy) as (i & call & Hnth & Hprobe).
  exists i, call. split; [|exact Hprobe].
  rewrite Hcalls. rewrite nth_error_app1; [exact Hnth|].
  apply nth_error_Some. rewrite Hnth. discriminate.
Qed.

Lemma reachable_cache_justified (env : Env) (w : World) :
  reachable env w -> cache_justified env w.
Proof.
  induction 1 as [| c w _ IH | c endpoint options retryCount w _ IH | lines w _ IH].
  - intros h Hh. discriminate.
  - destruct (cache_valid env w) eqn:Hv.
    + rewrite (@checkHealth_hit env c w Hv). simpl snd.
      apply (@cache_justified_extend env w (after_guard w) []);
        [apply after_guard_healthCache | | exact IH].
      unfold calls. rewrite after_guard_io, app_nil_r. reflexivity.
    + rewrite (@checkHealth_miss env c w Hv). cbv zeta. simpl snd.
      intros h Hh Hhealthy. simpl in Hh. injection Hh as <-.
      match type of Hhealthy with
      | healthy (probe_status ?f ?now) = true =>
          destruct (probe_failure f) eqn:Hfail;
          [ destruct (@probe_status_failed f now _ Hfail) as (Hno & _);
            rewrite Hno in Hhealthy; discriminate
          | destruct (@probe_status_answered f now Hfail)
              as (r & v & s & Hnet & Hok & Hbody & Hstatus & Hh & _) ]
      end.
      rewrite Hh in Hhealthy. apply strict_eq_string_true in Hhealthy.
      subst s. exists (length (calls w)), (health_call c). split.
      * unfold calls. simpl. rewrite calls_of_app, after_guard_io. simpl.
        rewrite nth_error_app2, Nat.sub_diag by lia. reflexivity.
      * exists r, v. repeat split; assumption.
  - destruct (@request_trace env c endpoint options (MAX_RETRIES - retryCount)
                retryCount w eq_refl) as (n & _ & Htrace & Hcache & _).
    apply (@cache_justified_extend env w _
             (repeat (request_call c endpoint options)
                (S (length (firstn n (skipn retryCount RETRY_DELAYS))))));
      [exact Hcache | exact (@calls_after_trace _ _ _ _ Htrace) | exact IH].
  - apply (@cache_justified_extend env w _ []); [reflexivity | | exact IH].
    unfold calls. simpl. rewrite app_nil_r. reflexivity.
Qed.

(** Whenever [checkHealth] reports [healthy = true] in a session, from the
    cache or from a fresh probe, some probe of the session was answered
    2xx with [status] "healthy". *)
Lemma checkHealth_healthy_only_after_healthy_probe (env : Env)
    (c : ApiClient) (w : World) (h : HealthStatus) :
  reachable env w ->
  fst (checkHealth env c w) = Return (Some h) ->
  healthy h = true ->
  exists (i : nat) (call : Call),
    nth_error (calls (snd (checkHealth env c w))) i = Some call
    /\ healthy_probe env i call.
Proof.
  intros Hreach Hret Hhealthy.
  apply (@reachable_cache_justified env _ (reach_checkHealth c Hreach) h);
    [|exact Hhealthy].
  destruct (cache_valid env w) eqn:Hv.
  - rewrite (@checkHealth_hit env c w Hv) in *. simpl in *.
    injection Hret as Hret. rewrite after_guard_healthCache. exact Hret.
  - rewrite (@checkHealth_miss env c w Hv) in *. cbv zeta in *. simpl in *.
    injection Hret as <-. reflexivity.
Qed.

(* ------------------------------------------------------------------ *)
(** ** [getInsights] *)

(** C8.  Asked for [pageSize = 5] and [severity = "high"] and nothing else,
    [getInsights] builds the pairs [shop_id], [page_size = 5] and
    [severity = high] and no other: the endpoint it requests is
    [/api/insights?shop_id=<shop>&page_size=5&severity=high], with no
    [type], [page] or [include_dismissed]. *)
Theorem getInsights_page_size_severity :
  forall (env : Env) (c : ApiClient) (shop : string),
    let params := params_of None (Some (Int 5)) None (Some "high") None in
    getInsights_searchParams shop params
    = [("shop_id", shop); ("page_size", "5"); ("severity", "high")]
    /\ getInsights_endpoint shop params
       = "/api/insights?shop_id=" ++ URLSearchParams.encode shop
         ++ "&page_size=5&severity=high"
    /\ getInsights env c shop params
       = request env c ("/api/insights?shop_id=" ++ URLSearchParams.encode shop
                        ++ "&page_size=5&severity=high") no_options 0.
Proof.
  intros env c shop params.
  assert (Hsp : getInsights_searchParams shop params
                = [("shop_id", shop); ("page_size", "5"); ("severity", "high")])
    by reflexivity.
  assert (Hend : getInsights_endpoint shop params
                 = "/api/insights?shop_id=" ++ URLSearchParams.encode shop
                   ++ "&page_size=5&severity=high").
  { unfold getInsights_endpoint. rewrite Hsp. reflexivity. }
  split; [exact Hsp|]. split; [exact Hend|].
  unfold getInsights. rewrite Hend. reflexivity.
Qed.

(** The query of [getInsights], pair by pair. *)
Lemma getInsights_searchParams_shape (shop : string)
    (params : option InsightsParams) :
  getInsights_searchParams shop params
  = (("shop_id", shop)
       :: pair_if (opt params page) VNum "page" number_to_String
       ++ pair_if (opt params pageSize) VNum "page_size" number_to_String
       ++ pair_if (opt params type) VStr "type" (fun s => s)
       ++ pair_if (opt params severity) VStr "severity" (fun s => s)
       ++ pair_if (opt params includeDismissed) VBool "include_dismissed"
            (fun _ => "true"))%list.
Proof.
  destruct params as [[p ps ty sev dis]|]; [|reflexivity].
  unfold getInsights_searchParams, opt, set_if, pair_if.
  cbn [page pageSize type severity includeDismissed].
  destruct p as [p|]; [destruct (truthy (VNum p))|];
    (destruct ps as [ps|]; [destruct (truthy (VNum ps))|]);
    (destruct ty as [ty|]; [destruct (truthy (VStr ty))|]);
    (destruct sev as [sev|]; [destruct (truthy (VStr sev))|]);
    (destruct dis as [dis|]; [destruct (truthy (VBool dis))|]);
    reflexivity.
Qed.

(** Only zero prints as "0". *)
Lemma number_to_String_zero (z : Z) :
  number_to_String (Int z) = "0" -> z = 0%Z.
Proof.
  destruct z as [|p|p]; simpl; [reflexivity | | discriminate].
  intros H. exfalso.
  pose proof (NilZero.usu (Pos.to_uint p) (DecimalPos.Unsigned.to_uint_nonnil p))
    as Hrt.
  unfold NilZero.string_of_int in H. simpl in H. rewrite H in Hrt.
  simpl in Hrt. injection Hrt as Hrt.
  exact (DecimalPos.Unsigned.to_uint_nonzero p (eq_sym Hrt)).
Qed.

(** C10.  In [getInsights], [page = 0], [pageSize = 0] and
    [includeDismissed = false] give the same request as leaving the
    parameter out; the query never carries [page=0], and it carries
    [include_dismissed] only with the value "true". *)
Theorem getInsights_falsy_params_dropped :
  forall (env : Env) (c : ApiClient) (shop : string)
         (p ps : option number) (ty sev : option string) (dis : option bool),
    getInsights env c shop (params_of (Some (Int 0)) ps ty sev dis)
    = getInsights env c shop (params_of None ps ty sev dis)
    /\ getInsights env c shop (params_of p (Some (Int 0)) ty sev dis)
       = getInsights env c shop (params_of p None ty sev dis)
    /\ getInsights env c shop (params_of p ps ty sev (Some false))
       = getInsights env c shop (params_of p ps ty sev None)
    /\ getInsights_endpoint shop (params_of (Some (Int 0)) (Some (Int 0)) ty sev (Some false))
       = getInsights_endpoint shop (params_of None None ty sev None)
    /\ (forall (params : option InsightsParams),
           ~ In ("page", "0") (getInsights_searchParams shop params))
    /\ (forall (params : option InsightsParams) (v : string),
           In ("include_dismissed", v) (getInsights_searchParams shop params) ->
           v = "true").
Proof.
  intros env c shop p ps ty sev dis.
  split; [reflexivity|]. split; [reflexivity|]. split; [reflexivity|].
  split; [reflexivity|]. split.
  - intros params Hin. rewrite getInsights_searchParams_shape in Hin.
    destruct Hin as [Hin | Hin]; [discriminate|].
    repeat (apply in_app_or in Hin; destruct Hin as [Hin | Hin]);
      unfold pair_if in Hin;
      match type of Hin with
      | In _ (match ?x with _ => _ end) => destruct x as [a|]; [|contradiction]
      end;
      match type of Hin with
      | In _ (if ?b then _ else _) => destruct b eqn:Hb; [|contradiction]
      end;
      destruct Hin as [Hin | []]; try discriminate.
    injection Hin as Hzero. destruct a as [z|]; [|discriminate].
    apply number_to_String_zero in Hzero. subst z. discriminate.
  - intros params v Hin. rewrite getInsights_searchParams_shape in Hin.
    destruct Hin as [Hin | Hin]; [discriminate|].
    repeat (apply in_app_or in Hin; destruct Hin as [Hin | Hin]);
      unfold pair_if in Hin;
      match type of Hin with
      | In _ (match ?x with _ => _ end) => destruct x as [a|]; [|contradiction]
      end;
      match type of Hin with
      | In _ (if ?b then _ else _) => destruct b eqn:Hb; [|contradiction]
      end;
      destruct Hin as [Hin | []]; try discriminate.
    injection Hin as <-. reflexivity.
Qed.

Lemma getInsights_falsy_params_dropped_witness :
  In ("include_dismissed", "true")
     (getInsights_searchParams "s1"
        (params_of (Some (Int 2)) None None None (Some true)))
  /\ "true" = "true"
  /\ ~ In ("page", "0")
         (getInsights_searchParams "s1"
            (params_of (Some (Int 0)) None None None (Some true))).
Proof.
  destruct (getInsights_falsy_params_dropped
              (answer_always (Rejected timeout_error))
              (plain_client (answer_always (Rejected timeout_error)))
              "s1" None None None None None)
    as (_ & _ & _ & _ & Hpage & Hdismissed).
  assert (Hin : In ("include_dismissed", "true")
                   (getInsights_searchParams "s1"
                      (params_of (Some (Int 2)) None None None (Some true)))).
  { simpl. right. right. left. reflexivity. }
  split; [exact Hin|]. split; [exact (Hdismissed _ _ Hin) | apply Hpage].
Defined.

(* ------------------------------------------------------------------ *)
(** ** [resolveShopId] *)

(** A call of [request] as callers issue it makes between one and four
    identical transport calls. *)
Lemma request_calls (env : Env) (c : ApiClient) (endpoint : string)
    (options : RequestInit) (w : World) :
  exists n : nat,
    1 <= n <= 4
    /\ calls (snd (request env c endpoint options 0 w))
       = (calls w ++ repeat (request_call c endpoint options) n)%list.
Proof.
  destruct (@request_trace env c endpoint options MAX_RETRIES 0 w eq_refl)
    as (n & Hn & Htrace & _).
  exists (S (length (firstn n (skipn 0 RETRY_DELAYS)))). split.
  - rewrite length_firstn. unfold MAX_RETRIES in Hn. simpl. lia.
  - exact (@calls_after_trace _ _ _ _ Htrace).
Qed.

(** C7.  [resolveShopId] first looks the shop up by domain.  If that yields
    a shop, its [id] is returned and nothing else happens: the only
    transport calls are those of the lookup.  If the lookup fails, however
    it fails, [registerShop] is run exactly once, with the domain, the
    credential and the configured scopes; its [id] is returned if it
    yields a shop and [null] if it fails too.  No exception escapes. *)
Theorem resolveShopId_lookup_then_register :
  forall (env : Env) (client : ApiClient) (domain token : string) (w : World),
    let looked := getShop env client domain w in
    let registered :=
      registerShop env client domain token (configured_scopes env) (snd looked) in
    let resolved := resolveShopId env client domain token w in
    (forall id : value,
        shop_id (fst looked) = Return id ->
        resolved = (Return id, snd looked)
        /\ exists n : nat,
             1 <= n <= 4
             /\ calls (snd resolved)
                = (calls w ++ repeat (lookup_call client domain) n)%list)
    /\ (forall e : exn,
           shop_id (fst looked) = Throw e ->
           (exists n m : nat,
               1 <= n <= 4 /\ 1 <= m <= 4
               /\ calls (snd resolved)
                  = (calls w ++ repeat (lookup_call client domain) n
                       ++ repeat (register_call env client domain token) m)%list)
           /\ (forall id : value,
                  shop_id (fst registered) = Return id ->
                  resolved = (Return id, snd registered))
           /\ (forall e' : exn,
                  shop_id (fst registered) = Throw e' ->
                  fst resolved = Return VNull
                  /\ io (snd resolved) = io (snd registered)))
    /\ (exists v : value, fst resolved = Return v).
Proof.
  intros env client domain token w looked registered resolved.
  destruct (@request_calls env client ("/api/shops/" ++ domain) no_options w)
    as (n & Hn & Hlook).
  fold (getShop env client domain) in Hlook. fold looked in Hlook.
  fold (lookup_call client domain) in Hlook.
  destruct (@request_calls env client "/api/shops"
              (POST (Some (VObj [("domain", VStr domain);
                                 ("access_token", VStr token);
                                 ("scopes", VStr (configured_scopes env))])))
              (snd looked)) as (m & Hm & Hreg).
  fold (registerShop env client domain token (configured_scopes env)) in Hreg.
  fold registered in Hreg. fold (register_call env client domain token) in Hreg.
  assert (Hrun :
            resolved
            = match shop_id (fst looked) with
              | Return id => (Return id, snd looked)
              | Throw _ =>
                  match shop_id (fst registered) with
                  | Return id => (Return id, snd registered)
                  | Throw e' =>
                      (Return VNull,
                       set_console
                         (console (snd registered)
                          ++ [Error [PText "Failed to resolve shop ID:"; PExn e']])
                         (snd registered))
                  end
              end).
  { unfold resolved, resolveShopId, registered.
    fold (configured_scopes env).
    unfold try_catch at 1. unfold bind at 1. fold looked.
    destruct looked as [[shop | e] w1]; simpl fst; simpl snd; unfold shop_id.
    - unfold lift. destruct (get_prop shop "id") as [id | e]; [reflexivity|].
      unfold try_catch, bind.
      destruct (registerShop env client domain token (configured_scopes env) w1)
        as [[newShop | e'] w2]; simpl fst; simpl snd.
      + destruct (get_prop newShop "id"); reflexivity.
      + reflexivity.
    - unfold try_catch, bind.
      destruct (registerShop env client domain token (configured_scopes env) w1)
        as [[newShop | e'] w2]; simpl fst; simpl snd.
      + unfold lift. destruct (get_prop newShop "id"); reflexivity.
      + reflexivity. }
  split; [|split].
  - intros id Hid. rewrite Hrun, Hid. split; [reflexivity|].
    exists n. split; [exact Hn | exact Hlook].
  - intros e He. rewrite Hrun, He. split; [|split].
    + exists n, m. split; [exact Hn|]. split; [exact Hm|].
      destruct (shop_id (fst registered)); simpl snd;
        [|change (calls (set_console ?l ?x)) with (calls x)];
        rewrite Hreg, Hlook, <- app_assoc; reflexivity.
    + intros id Hid. rewrite Hid. reflexivity.
    + intros e' He'. rewrite He'. split; reflexivity.
  - rewrite Hrun. destruct (shop_id (fst looked)); [eexists; reflexivity|].
    destruct (shop_id (fst registered)); eexists; reflexivity.
Qed.

(** A lookup answered 200 with the body [null] is a failed lookup: reading
    [shop.id] throws inside the [try] block, and the shop is registered. *)
Example resolveShopId_null_shop_registers :
  let env := env_of (fun _ call =>
                       if is_post call
                       then Resolved {| status := 201;
                                        body := Json (shop_body "uuid-3") |}
                       else Resolved {| status := 200; body := Json VNull |})
                    (fun _ => 0%Z) in
  let run := resolveShopId env (plain_client env) "acme.myshopify.com" "shpat_1"
               initial_world in
  fst run = Return (VStr "uuid-3")
  /\ calls (snd run)
     = [lookup_call (plain_client env) "acme.myshopify.com";
        register_call env (plain_client env) "acme.myshopify.com" "shpat_1"].
Proof. vm_compute. split; reflexivity. Qed.

Lemma resolveShopId_lookup_then_register_witness :
  (resolveShopId env_known_shop (plain_client env_known_shop)
     "acme.myshopify.com" "shpat_1" initial_world
   = (Return (VStr "uuid-1"),
      snd (getShop env_known_shop (plain_client env_known_shop)
             "acme.myshopify.com" initial_world))
   /\ calls (snd (resolveShopId env_known_shop (plain_client env_known_shop)
                    "acme.myshopify.com" "shpat_1" initial_world))
      = [lookup_call (plain_client env_known_shop) "acme.myshopify.com"])
  /\ (fst (resolveShopId env_unknown_shop (plain_client env_unknown_shop)
             "acme.myshopify.com" "shpat_1" initial_world)
      = Return (VStr "uuid-2")
      /\ calls (snd (resolveShopId env_unknown_shop (plain_client env_unknown_shop)
                       "acme.myshopify.com" "shpat_1" initial_world))
         = [lookup_call (plain_client env_unknown_shop) "acme.myshopify.com";
            register_call env_unknown_shop (plain_client env_unknown_shop)
              "acme.myshopify.com" "shpat_1"])
  /\ fst (resolveShopId env_404_detail (plain_client env_404_detail)
            "acme.myshopify.com" "shpat_1" initial_world)
     = Return VNull.
Proof.
  split; [|split].
  - destruct (resolveShopId_lookup_then_register env_known_shop
                (plain_client env_known_shop) "acme.myshopify.com" "shpat_1"
                initial_world) as (Hfound & _ & _).
    destruct (Hfound (VStr "uuid-1") eq_refl) as (Hres & _).
    split; [exact Hres|]. rewrite Hres. vm_compute. reflexivity.
  - destruct (resolveShopId_lookup_then_register env_unknown_shop
                (plain_client env_unknown_shop) "acme.myshopify.com" "shpat_1"
                initial_world) as (_ & Hmissing & _).
    destruct (Hmissing (ErrorObj "Error" "Shop not found") eq_refl)
      as (_ & Hregistered & _).
    rewrite (Hregistered (VStr "uuid-2") eq_refl).
    split; vm_compute; reflexivity.
  - destruct (resolveShopId_lookup_then_register env_404_detail
                (plain_client env_404_detail) "acme.myshopify.com" "shpat_1"
                initial_world) as (_ & Hmissing & _).
    destruct (Hmissing (ErrorObj "Error" "Shop not found") eq_refl)
      as (_ & _ & Hboth).
    exact (proj1 (Hboth (ErrorObj "Error" "Shop not found") eq_refl)).
Defined.

(* ================================================================== *)
(** * Further properties of the client *)

(* ------------------------------------------------------------------ *)
(** ** The stopping rule of [request] *)

Lemma request_stops_from (env : Env) (c : ApiClient) (endpoint : string)
    (options : RequestInit) (k : nat) :
  forall (retryCount : nat) (w : World),
    retryCount + k <= MAX_RETRIES ->
    (forall i : nat,
        i < k ->
        retried env (request_call c endpoint options) (length (calls w) + i) = true) ->
    retryCount + k = MAX_RETRIES
    \/ retried env (request_call c endpoint options) (length (calls w) + k) = false ->
    fst (request env c endpoint options retryCount w)
    = attempt_result
        (network env (length (calls w) + k) (request_call c endpoint options))
    /\ io (snd (request env c endpoint options retryCount w))
       = (io w ++ Fetch (request_call c endpoint options)
            :: retries (request_call c endpoint options)
                 (firstn k (skipn retryCount RETRY_DELAYS)))%list.
Proof.
  induction k as [|k IH]; intros retryCount w Hle Hfirst Hlast;
    rewrite request_step; unfold next_answer.
  - rewrite !Nat.add_0_r in Hlast. rewrite !Nat.add_0_r. unfold retried in Hlast.
    destruct (caught (network env (length (calls w))
                        (request_call c endpoint options))) as [e|] eqn:Hc.
    + assert (Hno : (retryCount <? MAX_RETRIES)%nat && isRetryable e = false).
      { destruct Hlast as [Hmax | Hnot].
        - apply andb_false_iff. left. apply Nat.ltb_ge. lia.
        - apply andb_false_iff. right. exact Hnot. }
      rewrite Hno. simpl. rewrite (caught_attempt_result _ Hc).
      split; reflexivity.
    + split; reflexivity.
  - pose proof (Hfirst 0 (Nat.lt_0_succ k)) as Hzero.
    rewrite Nat.add_0_r in Hzero. unfold retried in Hzero.
    destruct (caught (network env (length (calls w))
                        (request_call c endpoint options))) as [e|] eqn:Hc;
      [|discriminate].
    assert (Hlt : retryCount < MAX_RETRIES) by lia.
    assert (Hyes : (retryCount <? MAX_RETRIES)%nat && isRetryable e = true).
    { apply andb_true_iff. split; [apply Nat.ltb_lt; exact Hlt | exact Hzero]. }
    rewrite Hyes, warn_sleep_then.
    match goal with
    | |- context [request env c endpoint options (retryCount + 1) ?w2] =>
        remember w2 as w' eqn:Hw'
    end.
    assert (Hio : io w' = (io w ++ [Fetch (request_call c endpoint options);
                                    Sleep (nth retryCount RETRY_DELAYS 0%Z)])%list)
      by (subst w'; simpl; rewrite <- app_assoc; reflexivity).
    assert (Hlen : length (calls w') = S (length (calls w))).
    { unfold calls. rewrite Hio, calls_of_app, length_app. simpl. lia. }
    clear Hw'.
    destruct (IH (retryCount + 1) w') as [Hres Htrace].
    + lia.
    + intros i Hi. rewrite Hlen.
      replace (S (length (calls w)) + i) with (length (calls w) + S i) by lia.
      apply Hfirst. lia.
    + rewrite Hlen.
      replace (S (length (calls w)) + k) with (length (calls w) + S k) by lia.
      destruct Hlast as [Hmax | Hnot]; [left; lia | right; exact Hnot].
    + rewrite Hres, Htrace, Hlen, Hio. split.
      * f_equal. f_equal. lia.
      * rewrite <- app_assoc.
        rewrite (@skipn_cons_nth retryCount RETRY_DELAYS) by exact Hlt.
        reflexivity.
Qed.

(** X1.  [request] stops at the first attempt that succeeds or fails for
    good: when the first [k] answers (at most 3) are failures it takes for
    transient and the next one is not, or [k] is 3, the call settles to
    what attempt [k + 1] settles to, after exactly [k] retries spaced by
    the first [k] delays of the schedule. *)
Theorem request_stops_at_first_final_answer :
  forall (env : Env) (c : ApiClient) (endpoint : string)
         (options : RequestInit) (w : World) (k : nat),
    k <= 3 ->
    (forall i : nat,
        i < k ->
        retried env (request_call c endpoint options) (length (calls w) + i) = true) ->
    k = 3
    \/ retried env (request_call c endpoint options) (length (calls w) + k) = false ->
    fst (request env c endpoint options 0 w)
    = attempt_result
        (network env (length (calls w) + k) (request_call c endpoint options))
    /\ io (snd (request env c endpoint options 0 w))
       = (io w ++ Fetch (request_call c endpoint options)
            :: retries (request_call c endpoint options)
                 (firstn k [1000; 2000; 4000]%Z))%list.
Proof.
  intros env c endpoint options w k Hk Hfirst Hlast.
  apply (@request_stops_from env c endpoint options k 0 w);
    [exact Hk | exact Hfirst | exact Hlast].
Qed.

Lemma request_stops_at_first_final_answer_witness :
  fst (request env_slow_start (plain_client env_slow_start)
         "/api/dashboard/stats?shop_id=s1" no_options 0 initial_world)
  = Return (VObj [("totalRevenue", VNum (Int 500))])
  /\ slept (snd (request env_slow_start (plain_client env_slow_start)
                   "/api/dashboard/stats?shop_id=s1" no_options 0 initial_world))
     = [1000; 2000; 4000]%Z.
Proof.
  destruct (@request_stops_at_first_final_answer env_slow_start
              (plain_client env_slow_start) "/api/dashboard/stats?shop_id=s1"
              no_options initial_world 3) as [Hres Hio].
  - lia.
  - intros i Hi.
    destruct i as [|[|[|i]]]; [reflexivity | reflexivity | reflexivity | lia].
  - left. reflexivity.
  - split; [exact Hres|]. unfold slept. rewrite Hio. reflexivity.
Defined.

(* ------------------------------------------------------------------ *)
(** ** What a call of [request] costs and what it leaves alone *)

Lemma skipn_nil_Z (n : nat) : skipn n (@nil Z) = [].
Proof. destruct n; reflexivity. Qed.

Lemma schedule_total (n retryCount : nat) :
  (0 <= total (firstn n (skipn retryCount RETRY_DELAYS)) <= 7000)%Z.
Proof.
  destruct retryCount as [|[|[|retryCount]]];
    destruct n as [|[|[|n]]]; unfold total, RETRY_DELAYS;
    cbn [skipn firstn]; try rewrite skipn_nil_Z; try rewrite firstn_nil;
    cbn [fold_right]; lia.
Qed.

(** The history a call of [request] adds: between one and four transport
    calls, waits that sum to at most 7000 ms; the health cache and the
    clock are as before. *)
Lemma request_cost (env : Env) (c : ApiClient) (endpoint : string)
    (options : RequestInit) (retryCount : nat) (w : World) :
  exists added : list IO,
    io (snd (request env c endpoint options retryCount w)) = (io w ++ added)%list
    /\ 1 <= length (calls_of added) <= 4
    /\ (0 <= total (slept_of added) <= 7000)%Z
    /\ healthCache (snd (request env c endpoint options retryCount w))
       = healthCache w
    /\ clock_reads (snd (request env c endpoint options retryCount w))
       = clock_reads w.
Proof.
  destruct (@request_trace env c endpoint options (MAX_RETRIES - retryCount)
              retryCount w eq_refl) as (n & Hn & Htrace & Hcache & Hclock & _).
  eexists. split; [exact Htrace|]. simpl.
  rewrite calls_of_retries, slept_of_retries, repeat_length, length_firstn.
  split; [unfold MAX_RETRIES in Hn; lia|].
  split; [apply schedule_total|]. split; assumption.
Qed.

(** X2.  The waits of one call of [request] sum to at most 7000 ms,
    whatever the backend answers and whatever the retry counter it starts
    from. *)
Theorem request_waits_at_most_7000 :
  forall (env : Env) (c : ApiClient) (endpoint : string)
         (options : RequestInit) (retryCount : nat) (w : World),
  exists delays : list Z,
    slept (snd (request env c endpoint options retryCount w))
    = (slept w ++ delays)%list
    /\ (0 <= total delays <= 7000)%Z.
Proof.
  intros env c endpoint options retryCount w.
  destruct (request_cost env c endpoint options retryCount w)
    as (added & Hio & _ & Htotal & _).
  exists (slept_of added). split; [|exact Htotal].
  unfold slept. rewrite Hio, slept_of_app. reflexivity.
Qed.

Lemma request_ignores_healthCache_from (env : Env) (c : ApiClient)
    (endpoint : string) (options : RequestInit) (h : option HealthStatus)
    (d : nat) :
  forall (retryCount : nat) (w : World),
    MAX_RETRIES - retryCount = d ->
    request env c endpoint options retryCount (set_healthCache h w)
    = (fst (request env c endpoint options retryCount w),
       set_healthCache h (snd (request env c endpoint options retryCount w))).
Proof.
  induction d as [|d IH]; intros retryCount w Hd;
    rewrite (request_step env c endpoint options retryCount (set_healthCache h w));
    rewrite (request_step env c endpoint options retryCount w);
    change (next_answer env (set_healthCache h w) (request_call c endpoint options))
      with (next_answer env w (request_call c endpoint options));
    destruct (caught (next_answer env w (request_call c endpoint options)))
      as [e|]; try reflexivity.
  - assert (Hk : (retryCount <? MAX_RETRIES)%nat = false)
      by (apply Nat.ltb_ge; lia).
    rewrite Hk. reflexivity.
  - destruct ((retryCount <? MAX_RETRIES)%nat && isRetryable e) eqn:Hretry;
      [|reflexivity].
    apply andb_prop in Hretry. destruct Hretry as [Hlt _].
    apply Nat.ltb_lt in Hlt.
    rewrite !warn_sleep_then.
    match goal with
    | |- _ = (fst (request _ _ _ _ _ ?w2), _) =>
        change (request env c endpoint options (retryCount + 1)
                  (set_healthCache h w2)
                = (fst (request env c endpoint options (retryCount + 1) w2),
                   set_healthCache h
                     (snd (request env c endpoint options (retryCount + 1) w2))))
    end.
    apply IH. lia.
Qed.

(** X3.  The health cache never gates a request: with any other content of
    the cache, an unhealthy status included, [request] issues the same
    calls and waits, settles to the same result, and leaves the cache as it
    found it. *)
Theorem request_ignores_healthCache :
  forall (env : Env) (c : ApiClient) (endpoint : string)
         (options : RequestInit) (retryCount : nat) (w : World)
         (h : option HealthStatus),
    request env c endpoint options retryCount (set_healthCache h w)
    = (fst (request env c endpoint options retryCount w),
       set_healthCache h (snd (request env c endpoint options retryCount w))).
Proof.
  intros env c endpoint options retryCount w h.
  apply (@request_ignores_healthCache_from env c endpoint options h
           (MAX_RETRIES - retryCount)).
  reflexivity.
Qed.

(* ------------------------------------------------------------------ *)
(** ** Which HTTP errors [request] retries *)

Lemma api_error_5xx_has_5 (s : Z) :
  (500 <= s <= 599)%Z ->
  includes ("API error: " ++ number_to_String (Int s)) "5" = true.
Proof.
  intros Hs.
  assert (Hall : forallb (fun k => includes ("API error: "
                                              ++ number_to_String (Int (500 + Z.of_nat k)))
                                     "5")
                   (seq 0 100) = true) by (vm_compute; reflexivity).
  rewrite forallb_forall in Hall.
  replace s with (500 + Z.of_nat (Z.to_nat (s - 500)))%Z by lia.
  apply Hall. apply in_seq. lia.
Qed.


(** X4.  An HTTP 5xx answer whose body parses to a JSON value other than
    [null] and has no truthy [detail] is always retried while the counter is
    below 3: [request] waits the delay of the schedule and starts over with
    the counter one higher. *)
Theorem request_retries_5xx_without_detail :
  forall (env : Env) (c : ApiClient) (endpoint : string)
         (options : RequestInit) (retryCount : nat) (w : World)
         (r : Response) (v : value),
    next_answer env w (request_call c endpoint options) = Resolved r ->
    (500 <= status r <= 599)%Z ->
    body r = Json v ->
    v <> VNull ->
    v <> VUndefined ->
    (forall detail : value,
        get_prop v "detail" = Return detail -> truthy detail = false) ->
    retryCount < 3 ->
    exists w' : World,
      io w' = (io w ++ [Fetch (request_call c endpoint options);
                        Sleep (nth retryCount [1000; 2000; 4000]%Z 0%Z)])%list
      /\ healthCache w' = healthCache w
      /\ request env c endpoint options retryCount w
         = request env c endpoint options (retryCount + 1) w'.
Proof.
  intros env c endpoint options retryCount w r v
         Hnet Hstatus Hbody Hnull Hundef Hfalsy Hlt.
  destruct (@get_prop_defined v "detail" Hnull Hundef) as (detail & Hdetail).
  pose proof (Hfalsy detail Hdetail) as Hno.
  assert (Hok : ok r = false).
  { unfold ok. apply andb_false_iff. right. apply Z.leb_gt. lia. }
  assert (Herr : http_error r
                 = ErrorObj "Error"
                     ("API error: " ++ number_to_String (Int (status r)))).
  { unfold http_error. rewrite Hbody, Hdetail. unfold or_else.
    rewrite Hno. reflexivity. }
  assert (Hc : caught (next_answer env w (request_call c endpoint options))
               = Some (http_error r)).
  { rewrite Hnet. simpl. rewrite Hok. reflexivity. }
  assert (Hretry : (retryCount <? MAX_RETRIES)%nat && isRetryable (http_error r)
                   = true).
  { apply andb_true_iff. split; [apply Nat.ltb_lt; exact Hlt|].
    rewrite Herr. unfold isRetryable.
    rewrite (api_error_5xx_has_5 Hstatus). apply orb_true_r. }
  eexists. split; [|split];
    [| | exact (@request_retries env c endpoint options retryCount w _ Hc Hretry)];
    reflexivity.
Qed.

Lemma request_retries_5xx_without_detail_witness :
  exists w' : World,
    io w' = [Fetch (request_call (plain_client (answer_always (Resolved bare_500)))
                      "/api/shops/acme" no_options);
             Sleep 1000]
    /\ healthCache w' = None
    /\ request (answer_always (Resolved bare_500))
         (plain_client (answer_always (Resolved bare_500)))
         "/api/shops/acme" no_options 0 initial_world
       = request (answer_always (Resolved bare_500))
           (plain_client (answer_always (Resolved bare_500)))
           "/api/shops/acme" no_options 1 w'.
Proof.
  apply (@request_retries_5xx_without_detail
           (answer_always (Resolved bare_500))
           (plain_client (answer_always (Resolved bare_500)))
           "/api/shops/acme" no_options 0 initial_world bare_500
           (VObj [])).
  - reflexivity.
  - simpl. lia.
  - reflexivity.
  - discriminate.
  - discriminate.
  - intros detail Hdetail. simpl in Hdetail. injection Hdetail as <-.
    reflexivity.
  - lia.
Defined.

(** A 5xx answer whose body is the JSON [null] is not retried. *)
Example request_gives_up_on_null_500 :
  let env := answer_always (Resolved {| status := 500; body := Json VNull |}) in
  fst (request env (plain_client env) "/api/shops/acme" no_options 0 initial_world)
  = Throw (ErrorObj "TypeError"
             "Cannot read properties of null (reading 'detail')")
  /\ length (calls (snd (request env (plain_client env) "/api/shops/acme"
                           no_options 0 initial_world))) = 1.
Proof. vm_compute. split; reflexivity. Qed.



(* ------------------------------------------------------------------ *)
(** ** The headers [request] sends *)

Lemma header_assign_same (o : list (string * string)) (k v : string) :
  header k (assign o k v) = Some v.
Proof.
  induction o as [|[k' v'] o IH]; simpl.
  - rewrite String.eqb_refl. reflexivity.
  - destruct (k' =? k) eqn:E; simpl.
    + rewrite String.eqb_refl. reflexivity.
    + rewrite E. exact IH.
Qed.

Lemma header_assign_other (o : list (string * string)) (k v k' : string) :
  k <> k' -> header k' (assign o k v) = header k' o.
Proof.
  intros Hne. induction o as [|[k0 v0] o IH]; simpl.
  - destruct (k =? k') eqn:E; [apply String.eqb_eq in E; contradiction | reflexivity].
  - destruct (k0 =? k) eqn:E; simpl.
    + apply String.eqb_eq in E. subst k0.
      destruct (k =? k') eqn:E'; [apply String.eqb_eq in E'; contradiction | reflexivity].
    + destruct (k0 =? k'); [reflexivity | exact IH].
Qed.

Lemma keys_assign (o : list (string * string)) (k v : string) :
  map fst (assign o k v)
  = if has_key k o then map fst o else (map fst o ++ [k])%list.
Proof.
  induction o as [|[k' v'] o IH]; simpl; [reflexivity|].
  destruct (k' =? k) eqn:E; simpl.
  - apply String.eqb_eq in E. subst k'. reflexivity.
  - rewrite IH. destruct (has_key k o); reflexivity.
Qed.

Lemma has_key_false_not_in (o : list (string * string)) (k : string) :
  has_key k o = false -> ~ In k (map fst o).
Proof.
  induction o as [|[k' v'] o IH]; simpl; [intros _ []|].
  intros H. apply orb_false_iff in H. destruct H as [Hk Ho].
  intros [Heq | Hin]; [|exact (IH Ho Hin)].
  subst k'. rewrite String.eqb_refl in Hk. discriminate.
Qed.

Lemma spread_snoc (a b : list (string * string)) (k v : string) :
  spread a (b ++ [(k, v)]) = assign (spread a b) k v.
Proof. unfold spread. rewrite fold_left_app. reflexivity. Qed.

Lemma header_spread (a b : list (string * string)) (k : string) :
  header k (spread a b)
  = match header k (rev b) with
    | Some v => Some v
    | None => header k a
    end.
Proof.
  induction b as [|[k' v'] b IH] using rev_ind; [reflexivity|].
  rewrite spread_snoc, rev_unit. simpl.
  destruct (k' =? k) eqn:E.
  - apply String.eqb_eq in E. subst k'. apply header_assign_same.
  - rewrite header_assign_other; [exact IH|].
    intros ->. rewrite String.eqb_refl in E. discriminate.
Qed.

Lemma NoDup_keys_spread (a b : list (string * string)) :
  NoDup (map fst a) -> NoDup (map fst (spread a b)).
Proof.
  intros Ha. induction b as [|[k v] b IH] using rev_ind; [exact Ha|].
  rewrite spread_snoc, keys_assign.
  destruct (has_key k (spread a b)) eqn:E; [exact IH|].
  apply NoDup_app; [exact IH | repeat constructor; intros [] | ].
  intros x Hx [<- | []]. exact (has_key_false_not_in _ _ E Hx).
Qed.

Lemma NoDup_keys_getHeaders (c : ApiClient) : NoDup (map fst (getHeaders c)).
Proof.
  unfold getHeaders. destruct (config c) as [cfg|].
  - destruct (accessToken cfg =? EmptyString); simpl;
      repeat constructor; simpl; intuition discriminate.
  - simpl. repeat constructor. intros [].
Qed.

(** X6.  In the headers of the transport call of [request] every name
    occurs once, and its value is the one the caller gives in
    [options.headers] (the last one, if several) or else the default of
    [getHeaders]. *)
Theorem request_headers_caller_wins :
  forall (c : ApiClient) (endpoint : string) (options : RequestInit)
         (k : string),
    NoDup (map fst (init_headers (call_init (request_call c endpoint options))))
    /\ header k (init_headers (call_init (request_call c endpoint options)))
       = match header k (rev (init_headers options)) with
         | Some v => Some v
         | None => header k (getHeaders c)
         end.
Proof.
  intros c endpoint options k. simpl. split.
  - apply NoDup_keys_spread, NoDup_keys_getHeaders.
  - apply header_spread.
Qed.

(* ------------------------------------------------------------------ *)
(** ** [checkHealth] across calls and clients *)

(** [checkHealth] leaves in the cache the status it returns. *)
Lemma checkHealth_caches_result (env : Env) (c : ApiClient) (w : World)
    (h : HealthStatus) :
  fst (checkHealth env c w) = Return (Some h) ->
  healthCache (snd (checkHealth env c w)) = Some h.
Proof.
  destruct (cache_valid env w) eqn:Hv.
  - rewrite (@checkHealth_hit env c w Hv). simpl.
    intros [= Hh]. rewrite after_guard_healthCache. exact Hh.
  - rewrite (@checkHealth_miss env c w Hv). cbv zeta. simpl.
    intros [= <-]. reflexivity.
Qed.

(** X7.  The health cache is shared by all clients: once [checkHealth] has
    returned a status, a further [checkHealth], from any client and for any
    base URL, made while the clock is less than 60000 ms past the
    timestamp of that status, returns the same status without a transport
    call; it only reads the clock. *)
Theorem checkHealth_twice_one_probe :
  forall (env : Env) (c c' : ApiClient) (w : World) (h : HealthStatus),
    fst (checkHealth env c w) = Return (Some h) ->
    (time env (clock_reads (snd (checkHealth env c w))) - timestamp h < 60000)%Z ->
    checkHealth env c' (snd (checkHealth env c w))
    = (Return (Some h),
       set_clock_reads (S (clock_reads (snd (checkHealth env c w))))
         (snd (checkHealth env c w))).
Proof.
  intros env c c' w h Hret Hyoung.
  pose proof (checkHealth_caches_result env c w Hret) as Hcache.
  assert (Hv : cache_valid env (snd (checkHealth env c w)) = true).
  { unfold cache_valid. rewrite Hcache. apply Z.ltb_lt. exact Hyoung. }
  rewrite (@checkHealth_hit env c' _ Hv), Hcache.
  unfold after_guard. rewrite Hcache. reflexivity.
Qed.

Lemma checkHealth_twice_one_probe_witness :
  fst (checkHealth env_flapping other_client world_checked_once)
  = Return (Some first_status)
  /\ io (snd (checkHealth env_flapping other_client world_checked_once))
     = io world_checked_once.
Proof.
  assert (Hret : fst (checkHealth env_flapping (plain_client env_flapping)
                        initial_world) = Return (Some first_status))
    by (vm_compute; reflexivity).
  assert (Hyoung :
            (time env_flapping
               (clock_reads (snd (checkHealth env_flapping
                                    (plain_client env_flapping) initial_world)))
             - timestamp first_status < 60000)%Z)
    by (vm_compute; reflexivity).
  pose proof (@checkHealth_twice_one_probe env_flapping
                (plain_client env_flapping) other_client initial_world
                first_status Hret Hyoung) as Hsame.
  unfold world_checked_once. rewrite Hsame. split; reflexivity.
Defined.

(** X8.  Over a whole session, started from a freshly loaded module and
    made of calls of [checkHealth] and [request] and of console output,
    whenever [checkHealth] reports [healthy = true], from the cache or from
    a fresh probe, one of the transport calls of the session so far was
    answered 2xx with a body whose [status] is the string "healthy". *)
Theorem healthy_report_backed_by_probe :
  forall (env : Env) (c : ApiClient) (w : World) (h : HealthStatus),
    reachable env w ->
    fst (checkHealth env c w) = Return (Some h) ->
    healthy h = true ->
    exists (i : nat) (call : Call),
      nth_error (calls (snd (checkHealth env c w))) i = Some call
      /\ healthy_probe env i call.
Proof.
  intros env c w h Hreach Hret Hhealthy.
  exact (@checkHealth_healthy_only_after_healthy_probe env c w h
           Hreach Hret Hhealthy).
Qed.

Lemma healthy_report_backed_by_probe_witness :
  exists (i : nat) (call : Call),
    nth_error (calls (snd (checkHealth env_flapping (plain_client env_flapping)
                             world_checked_once))) i = Some call
    /\ healthy_probe env_flapping i call.
Proof.
  apply (@healthy_report_backed_by_probe env_flapping
           (plain_client env_flapping) world_checked_once first_status).
  - apply reach_checkHealth. apply reach_start.
  - vm_compute. reflexivity.
  - reflexivity.
Defined.

(* ------------------------------------------------------------------ *)
(** ** [createApiClient] *)

(** [checkHealth] returns a status and adds at most its probe to the
    history. *)
Lemma checkHealth_run (env : Env) (c : ApiClient) (w : World) :
  exists h : HealthStatus,
    fst (checkHealth env c w) = Return (Some h)
    /\ (io (snd (checkHealth env c w)) = io w
        \/ io (snd (checkHealth env c w)) = (io w ++ [Fetch (health_call c)])%list).
Proof.
  destruct (cache_valid env w) eqn:Hv.
  - rewrite (@checkHealth_hit env c w Hv). unfold cache_valid in Hv.
    destruct (healthCache w) as [h|] eqn:Hh; [|discriminate].
    exists h. simpl. rewrite after_guard_io. split; [reflexivity | left; reflexivity].
  - rewrite (@checkHealth_miss env c w Hv). cbv zeta. eexists. simpl.
    rewrite after_guard_io. split; [reflexivity | right; reflexivity].
Qed.

(** [createApiClient] returns its client after at most one probe. *)
Lemma createApiClient_run (env : Env) (token shop : string) (w : World) :
  exists w' : World,
    createApiClient env token shop w
    = (Return (created_client env token shop), w')
    /\ (io w' = io w
        \/ io w' = (io w ++ [Fetch (health_call
                                      (created_client env token shop))])%list).
Proof.
  unfold createApiClient.
  change (configure (new_ApiClient env (Some (BACKEND_URL env)))
            {| shopId := shop; accessToken := token |})
    with (created_client env token shop).
  destruct (checkHealth_run env (created_client env token shop) w)
    as (h & Hret & Hio).
  unfold bind at 1.
  destruct (checkHealth env (created_client env token shop) w) as [r w1].
  simpl in Hret, Hio. subst r.
  unfold bind, console_warn, ret. cbv beta iota.
  destruct (negb (healthy h)); eexists; (split; [reflexivity | exact Hio]).
Qed.

(** X9.  The health check of [createApiClient] is advisory: whatever the
    backend answers and whatever the cache holds, [createApiClient] returns
    the client for [BACKEND_URL] configured with the given credential and
    shop, after at most one transport call (the probe of [/health]) and no
    wait; it never throws. *)
Theorem createApiClient_never_blocked :
  forall (env : Env) (token shop : string) (w : World),
    fst (createApiClient env token shop w)
    = Return (created_client env token shop)
    /\ (io (snd (createApiClient env token shop w)) = io w
        \/ io (snd (createApiClient env token shop w))
           = (io w ++ [Fetch (health_call (created_client env token shop))])%list).
Proof.
  intros env token shop w.
  destruct (createApiClient_run env token shop w) as (w' & -> & Hio).
  split; [reflexivity | exact Hio].
Qed.

(* ------------------------------------------------------------------ *)
(** ** What [resolveShopId] costs *)

Lemma total_app (a b : list Z) : total (a ++ b) = (total a + total b)%Z.
Proof.
  unfold total. induction a as [|x a IH]; simpl; [reflexivity | rewrite IH; lia].
Qed.

(** [resolveShopId], step by step. *)
Lemma resolveShopId_run (env : Env) (client : ApiClient)
    (domain token : string) (w : World) :
  let looked := getShop env client domain w in
  let registered :=
    registerShop env client domain token (configured_scopes env) (snd looked) in
  resolveShopId env client domain token w
  = match shop_id (fst looked) with
    | Return id => (Return id, snd looked)
    | Throw _ =>
        match shop_id (fst registered) with
        | Return id => (Return id, snd registered)
        | Throw e' =>
            (Return VNull,
             set_console
               (console (snd registered)
                ++ [Error [PText "Failed to resolve shop ID:"; PExn e']])
               (snd registered))
        end
    end.
Proof.
  intros looked registered. unfold resolveShopId, registered.
  fold (configured_scopes env).
  unfold try_catch at 1. unfold bind at 1. fold looked.
  destruct looked as [[shop | e] w1]; simpl fst; simpl snd; unfold shop_id.
  - unfold lift. destruct (get_prop shop "id") as [id | e]; [reflexivity|].
    unfold try_catch, bind.
    destruct (registerShop env client domain token (configured_scopes env) w1)
      as [[newShop | e'] w2]; simpl fst; simpl snd.
    + destruct (get_prop newShop "id"); reflexivity.
    + reflexivity.
  - unfold try_catch, bind.
    destruct (registerShop env client domain token (configured_scopes env) w1)
      as [[newShop | e'] w2]; simpl fst; simpl snd.
    + unfold lift. destruct (get_prop newShop "id"); reflexivity.
    + reflexivity.
Qed.

(** The history [resolveShopId] adds. *)
Lemma resolveShopId_added (env : Env) (client : ApiClient)
    (domain token : string) (w : World) :
  exists added : list IO,
    io (snd (resolveShopId env client domain token w)) = (io w ++ added)%list
    /\ 1 <= length (calls_of added) <= 8
    /\ (0 <= total (slept_of added) <= 14000)%Z
    /\ healthCache (snd (resolveShopId env client domain token w))
       = healthCache w
    /\ clock_reads (snd (resolveShopId env client domain token w))
       = clock_reads w.
Proof.
  rewrite resolveShopId_run. cbv zeta.
  destruct (request_cost env client ("/api/shops/" ++ domain) no_options 0 w)
    as (a1 & Hio1 & Hc1 & Hs1 & Hh1 & Hr1).
  fold (getShop env client domain) in Hio1, Hh1, Hr1.
  destruct (request_cost env client "/api/shops"
              (POST (Some (VObj [("domain", VStr domain);
                                 ("access_token", VStr token);
                                 ("scopes", VStr (configured_scopes env))])))
              0 (snd (getShop env client domain w)))
    as (a2 & Hio2 & Hc2 & Hs2 & Hh2 & Hr2).
  fold (registerShop env client domain token (configured_scopes env))
    in Hio2, Hh2, Hr2.
  destruct (shop_id (fst (getShop env client domain w))).
  - exists a1. simpl snd. repeat split; try assumption; lia.
  - exists (a1 ++ a2)%list.
    assert (Hcost : 1 <= length (calls_of (a1 ++ a2)) <= 8
                    /\ (0 <= total (slept_of (a1 ++ a2)) <= 14000)%Z).
    { rewrite calls_of_app, slept_of_app, length_app, total_app. lia. }
    destruct (shop_id (fst (registerShop env client domain token
                              (configured_scopes env)
                              (snd (getShop env client domain w)))));
      simpl snd;
      try change (io (set_console ?l ?x)) with (io x);
      try change (healthCache (set_console ?l ?x)) with (healthCache x);
      try change (clock_reads (set_console ?l ?x)) with (clock_reads x);
      rewrite Hio2, Hio1, Hh2, Hh1, Hr2, Hr1, <- app_assoc;
      repeat split; try reflexivity; try apply Hcost.
Qed.

(** X10.  [resolveShopId] adds between one and eight transport calls and
    waits that sum to at most 14000 ms to the history, and it leaves the
    health cache and the clock as they were. *)
Theorem resolveShopId_cost :
  forall (env : Env) (client : ApiClient) (domain token : string) (w : World),
  exists added : list IO,
    io (snd (resolveShopId env client domain token w)) = (io w ++ added)%list
    /\ 1 <= length (calls_of added) <= 8
    /\ (0 <= total (slept_of added) <= 14000)%Z
    /\ healthCache (snd (resolveShopId env client domain token w))
       = healthCache w
    /\ clock_reads (snd (resolveShopId env client domain token w))
       = clock_reads w.
Proof.
  intros env client domain token w.
  exact (resolveShopId_added env client domain token w).
Qed.

(* ------------------------------------------------------------------ *)
(** ** The query of [getInsights] *)

Lemma decode_first_encode_byte (a : ascii) (rest : string) :
  decode_first (URLSearchParams.encode_byte a ++ rest) = Some (a, rest).
Proof.
  destruct a as [[] [] [] [] [] [] [] []]; reflexivity.
Qed.

Lemma encode_byte_safe (a : ascii) :
  all_chars query_safe (URLSearchParams.encode_byte a) = true.
Proof.
  destruct a as [[] [] [] [] [] [] [] []]; reflexivity.
Qed.

Lemma all_chars_app (p : ascii -> bool) (s t : string) :
  all_chars p (s ++ t) = all_chars p s && all_chars p t.
Proof.
  induction s as [|a s IH]; simpl; [reflexivity|].
  rewrite IH. apply andb_assoc.
Qed.

Lemma string_app_assoc (s t u : string) : (s ++ t) ++ u = s ++ (t ++ u).
Proof. induction s as [|a s IH]; simpl; [reflexivity | f_equal; exact IH]. Qed.

Lemma string_app_nil_r (s : string) : s ++ EmptyString = s.
Proof. induction s as [|a s IH]; simpl; [reflexivity | f_equal; exact IH]. Qed.

Lemma string_app_inv_tail (s t u : string) : s ++ u = t ++ u -> s = t.
Proof.
  intros H.
  assert (Hl : (list_ascii_of_string s ++ list_ascii_of_string u
                = list_ascii_of_string t ++ list_ascii_of_string u)%list).
  { assert (Happ : forall x y, list_ascii_of_string (x ++ y)
                               = (list_ascii_of_string x ++ list_ascii_of_string y)%list).
    { intros x y. induction x as [|a x IH]; simpl; [reflexivity | f_equal; exact IH]. }
    rewrite <- !Happ, H. reflexivity. }
  apply app_inv_tail in Hl.
  rewrite <- (string_of_list_ascii_of_string s), Hl.
  apply string_of_list_ascii_of_string.
Qed.

Lemma encode_injective (s t : string) :
  URLSearchParams.encode s = URLSearchParams.encode t -> s = t.
Proof.
  revert t. induction s as [|a s IH]; intros [|b t] H; simpl in H.
  - reflexivity.
  - exfalso. apply (f_equal decode_first) in H.
    rewrite decode_first_encode_byte in H. discriminate.
  - exfalso. apply (f_equal decode_first) in H.
    rewrite decode_first_encode_byte in H. discriminate.
  - apply (f_equal decode_first) in H.
    rewrite !decode_first_encode_byte in H. injection H as -> H.
    f_equal. apply IH. exact H.
Qed.

Lemma encode_unreserved (s : string) :
  all_chars URLSearchParams.unreserved s = true -> URLSearchParams.encode s = s.
Proof.
  induction s as [|a s IH]; simpl; [reflexivity|].
  intros H. apply andb_prop in H. destruct H as [Ha Hs].
  unfold URLSearchParams.encode_byte. rewrite Ha. simpl. f_equal. exact (IH Hs).
Qed.

Lemma toString_cons (k v : string) (rest : URLSearchParams.t) :
  URLSearchParams.toString ((k, v) :: rest)
  = URLSearchParams.encode k ++ "=" ++ URLSearchParams.encode v ++ query_tail rest.
Proof.
  unfold URLSearchParams.toString. revert k v.
  induction rest as [|[k' v'] rest IH]; intros k v.
  - simpl. rewrite string_app_nil_r. reflexivity.
  - change (join "&" (map (fun kv => URLSearchParams.encode (fst kv) ++ "="
                                     ++ URLSearchParams.encode (snd kv))
                        ((k, v) :: (k', v') :: rest)))
      with ((URLSearchParams.encode k ++ "=" ++ URLSearchParams.encode v)
            ++ "&"
            ++ join "&" (map (fun kv => URLSearchParams.encode (fst kv) ++ "="
                                        ++ URLSearchParams.encode (snd kv))
                           ((k', v') :: rest))).
    rewrite IH. rewrite string_app_assoc.
    change ((String "=" (URLSearchParams.encode v)) ++ ?x)
      with (String "=" (URLSearchParams.encode v ++ x)).
    reflexivity.
Qed.

(** The endpoint of [getInsights]: the shop first, then the optional
    pairs. *)
Lemma getInsights_endpoint_shape (shop : string)
    (params : option InsightsParams) :
  getInsights_endpoint shop params
  = "/api/insights?shop_id=" ++ URLSearchParams.encode shop
    ++ query_tail (optional_pairs params).
Proof.
  unfold getInsights_endpoint.
  rewrite getInsights_searchParams_shape. fold (optional_pairs params).
  rewrite toString_cons. reflexivity.
Qed.

Lemma count_char_app (c : ascii) (s t : string) :
  count_char c (s ++ t) = count_char c s + count_char c t.
Proof.
  induction s as [|a s IH]; simpl; [reflexivity | rewrite IH; lia].
Qed.

Lemma encode_byte_no_separator (a : ascii) :
  count_char "&" (URLSearchParams.encode_byte a) = 0
  /\ count_char "=" (URLSearchParams.encode_byte a) = 0.
Proof.
  destruct a as [[] [] [] [] [] [] [] []]; split; reflexivity.
Qed.

Lemma encode_no_separator (s : string) :
  count_char "&" (URLSearchParams.encode s) = 0
  /\ count_char "=" (URLSearchParams.encode s) = 0.
Proof.
  induction s as [|a s [IH1 IH2]]; simpl; [split; reflexivity|].
  rewrite !count_char_app, IH1, IH2.
  destruct (encode_byte_no_separator a) as [-> ->]. split; reflexivity.
Qed.

Lemma query_tail_separators (pairs : URLSearchParams.t) :
  count_char "&" (query_tail pairs) = length pairs
  /\ count_char "=" (query_tail pairs) = length pairs.
Proof.
  induction pairs as [|[k v] pairs [IH1 IH2]]; [split; reflexivity|].
  cbn [query_tail length]. rewrite !count_char_app, IH1, IH2.
  destruct (encode_no_separator k) as [-> ->].
  destruct (encode_no_separator v) as [-> ->].
  split; reflexivity.
Qed.

(** X11.  The query of [getInsights] always starts with the [shop_id]
    pair, names no parameter twice, and lists the parameters it sends in
    the fixed order shop_id, page, page_size, type, severity,
    include_dismissed. *)
Theorem getInsights_query_order :
  forall (shop : string) (params : option InsightsParams),
    hd_error (getInsights_searchParams shop params) = Some ("shop_id", shop)
    /\ NoDup (map fst (getInsights_searchParams shop params))
    /\ subsequence (map fst (getInsights_searchParams shop params))
         ["shop_id"; "page"; "page_size"; "type"; "severity";
          "include_dismissed"] = true.
Proof.
  intros shop params. rewrite getInsights_searchParams_shape. unfold pair_if.
  destruct (opt params page) as [p|]; [destruct (truthy (VNum p))|];
    (destruct (opt params pageSize) as [ps|]; [destruct (truthy (VNum ps))|]);
    (destruct (opt params type) as [ty|]; [destruct (truthy (VStr ty))|]);
    (destruct (opt params severity) as [sev|]; [destruct (truthy (VStr sev))|]);
    (destruct (opt params includeDismissed) as [dis|];
     [destruct (truthy (VBool dis))|]);
    (split; [reflexivity|]; split; [|reflexivity]);
    simpl; repeat constructor; simpl; intuition discriminate.
Qed.

(** X12.  A shop identifier made of ASCII letters, digits, [-], [_], [.]
    and [*] only, such as a UUID, goes into the endpoint of [getInsights]
    as it is. *)
Theorem getInsights_plain_shop_verbatim :
  forall (shop : string) (params : option InsightsParams),
    all_chars URLSearchParams.unreserved shop = true ->
    getInsights_endpoint shop params
    = "/api/insights?shop_id=" ++ shop ++ query_tail (optional_pairs params).
Proof.
  intros shop params Hplain.
  rewrite getInsights_endpoint_shape, (encode_unreserved shop Hplain).
  reflexivity.
Qed.

Lemma getInsights_plain_shop_verbatim_witness :
  getInsights_endpoint "3f2b8c1e-7a4d-4e5f-9b6a-0c1d2e3f4a5b"
    (params_of None (Some (Int 10)) None None None)
  = "/api/insights?shop_id=3f2b8c1e-7a4d-4e5f-9b6a-0c1d2e3f4a5b&page_size=10".
Proof.
  exact (@getInsights_plain_shop_verbatim
           "3f2b8c1e-7a4d-4e5f-9b6a-0c1d2e3f4a5b"
           (params_of None (Some (Int 10)) None None None) eq_refl).
Defined.

Lemma getInsights_endpoint_inv (shop shop' : string)
    (params : option InsightsParams) :
  getInsights_endpoint shop params = getInsights_endpoint shop' params ->
  shop = shop'.
Proof.
  intros H. rewrite !getInsights_endpoint_shape in H.
  assert (H' : URLSearchParams.encode shop ++ query_tail (optional_pairs params)
               = URLSearchParams.encode shop' ++ query_tail (optional_pairs params)).
  { set (x := URLSearchParams.encode shop ++ query_tail (optional_pairs params)) in *.
    set (y := URLSearchParams.encode shop' ++ query_tail (optional_pairs params)) in *.
    simpl in H. repeat (injection H as H). exact H. }
  apply encode_injective. exact (string_app_inv_tail _ _ _ H').
Qed.

(** X13.  With the same parameters, two different well-formed shop
    identifiers (JavaScript strings without a lone surrogate, given by
    their UTF-8 bytes) never give the same endpoint of [getInsights]. *)
Theorem getInsights_endpoint_injective :
  forall (shop shop' : string) (params : option InsightsParams),
    well_formed_utf8 shop = true ->
    well_formed_utf8 shop' = true ->
    shop <> shop' ->
    getInsights_endpoint shop params <> getInsights_endpoint shop' params.
Proof.
  intros shop shop' params _ _ Hne H.
  exact (Hne (@getInsights_endpoint_inv shop shop' params H)).
Qed.

(** U+FFFD is well-formed text; the three bytes of the surrogate U+D800,
    which no JavaScript string gives, are not. *)
Example well_formed_utf8_surrogate :
  well_formed_utf8 (String (ascii_of_nat 239) (String (ascii_of_nat 191)
                      (String (ascii_of_nat 189) EmptyString))) = true
  /\ well_formed_utf8 (String (ascii_of_nat 237) (String (ascii_of_nat 160)
                         (String (ascii_of_nat 128) EmptyString))) = false.
Proof. split; reflexivity. Qed.

Lemma getInsights_endpoint_injective_witness :
  well_formed_utf8 "a b" = true
  /\ well_formed_utf8 "a+b" = true
  /\ getInsights_endpoint "a b" None <> getInsights_endpoint "a+b" None.
Proof.
  split; [reflexivity|]. split; [reflexivity|].
  apply getInsights_endpoint_injective; [reflexivity | reflexivity | discriminate].
Defined.

(** X14.  Nothing in the shop identifier or in a parameter value adds a
    separator to the endpoint of [getInsights]: it has one [&] per optional
    parameter sent and one [=] per pair. *)
Theorem getInsights_endpoint_separators :
  forall (shop : string) (params : option InsightsParams),
    count_char "&" (getInsights_endpoint shop params)
    = length (optional_pairs params)
    /\ count_char "=" (getInsights_endpoint shop params)
       = 1 + length (optional_pairs params)
    /\ length (getInsights_searchParams shop params)
       = 1 + length (optional_pairs params).
Proof.
  intros shop params. rewrite getInsights_endpoint_shape.
  rewrite !count_char_app.
  destruct (encode_no_separator shop) as [-> ->].
  destruct (query_tail_separators (optional_pairs params)) as [-> ->].
  rewrite getInsights_searchParams_shape. fold (optional_pairs params).
  repeat split.
Qed.

(* ------------------------------------------------------------------ *)
(** ** The loader of the insights page *)

Lemma resolveShopId_returns (env : Env) (client : ApiClient)
    (domain token : string) (w : World) :
  exists id : value, fst (resolveShopId env client domain token w) = Return id.
Proof.
  rewrite resolveShopId_run. cbv zeta.
  destruct (shop_id (fst (getShop env client domain w)));
    [eexists; reflexivity|].
  destruct (shop_id (fst (registerShop env client domain token
                            (configured_scopes env)
                            (snd (getShop env client domain w)))));
    eexists; reflexivity.
Qed.

(** What the loader returns and what it adds to the history. *)
Lemma loader_summary (env : Env) (authenticate_admin : M InsightsRoute.Session)
    (w w0 : World) (session : InsightsRoute.Session) :
  authenticate_admin w = (Return session, w0) ->
  exists (data : InsightsRoute.LoaderData) (added : list IO) (w' : World),
    InsightsRoute.loader env authenticate_admin w = (Return data, w')
    /\ InsightsRoute.data_shopId data = InsightsRoute.shop session
    /\ (InsightsRoute.data_error data = None
        \/ (InsightsRoute.data_error data = Some InsightsRoute.register_failed
            /\ InsightsRoute.insights data = VArr [])
        \/ (InsightsRoute.data_error data = Some InsightsRoute.backend_unavailable
            /\ InsightsRoute.insights data = VArr []))
    /\ io w' = (io w0 ++ added)%list
    /\ 1 <= length (calls_of added) <= 13
    /\ (0 <= total (slept_of added) <= 21000)%Z.
Proof.
  intros Hauth.
  set (domain := InsightsRoute.shop session).
  set (token := env_or (InsightsRoute.session_accessToken session) EmptyString).
  destruct (createApiClient_run env token domain w0) as (w1 & Hcreate & Hio1).
  destruct (resolveShopId_returns env (created_client env token domain)
              domain token w1) as (id & Hid).
  destruct (resolveShopId_added env (created_client env token domain)
              domain token w1) as (a2 & Hio2 & Hc2 & Hs2 & _).
  destruct (request_cost env (created_client env token domain)
              (getInsights_endpoint (to_String id)
                 (params_of None (Some (Int 10)) None None None))
              no_options 0
              (snd (resolveShopId env (created_client env token domain)
                      domain token w1)))
    as (a3 & Hio3 & Hc3 & Hs3 & _).
  fold (getInsights env (created_client env token domain) (to_String id)
          (params_of None (Some (Int 10)) None None None)) in Hio3.
  assert (Hio1' : exists a1, io w1 = (io w0 ++ a1)%list
                             /\ length (calls_of a1) <= 1
                             /\ total (slept_of a1) = 0%Z).
  { destruct Hio1 as [H | H]; [exists [] | eexists]; rewrite H;
      [rewrite app_nil_r|]; repeat split; simpl; lia. }
  destruct Hio1' as (a1 & Ha1 & Hc1 & Hs1).
  assert (Hcost2 : 1 <= length (calls_of (a1 ++ a2)) <= 13
                   /\ (0 <= total (slept_of (a1 ++ a2)) <= 21000)%Z).
  { rewrite calls_of_app, slept_of_app, length_app, total_app. lia. }
  assert (Hcost3 : 1 <= length (calls_of (a1 ++ a2 ++ a3)) <= 13
                   /\ (0 <= total (slept_of (a1 ++ a2 ++ a3)) <= 21000)%Z).
  { rewrite !calls_of_app, !slept_of_app, !length_app, !total_app. lia. }
  unfold InsightsRoute.loader. unfold bind at 1. rewrite Hauth.
  fold domain. fold token.
  unfold try_catch at 1. unfold bind at 1. rewrite Hcreate.
  unfold bind at 1.
  destruct (resolveShopId env (created_client env token domain) domain token w1)
    as [r w2]. simpl in Hid, Hio2, Hio3. subst r.
  destruct (truthy id); simpl (negb _); cbv beta iota.
  - unfold bind at 1.
    destruct (getInsights env (created_client env token domain) (to_String id)
                (params_of None (Some (Int 10)) None None None) w2)
      as [[v | e] w3]; simpl in Hio3.
    + unfold bind, lift, ret.
      destruct (get_prop v "items") as [items | e].
      * eexists. exists (a1 ++ a2 ++ a3)%list. eexists.
        split; [reflexivity|]. simpl.
        rewrite Hio3, Hio2, Ha1, <- !app_assoc.
        repeat split; try apply Hcost3. left. reflexivity.
      * eexists. exists (a1 ++ a2 ++ a3)%list. eexists.
        split; [reflexivity|]. simpl.
        rewrite Hio3, Hio2, Ha1, <- !app_assoc.
        repeat split; try apply Hcost3. right. right. split; reflexivity.
    + eexists. exists (a1 ++ a2 ++ a3)%list. eexists.
      split; [reflexivity|]. simpl.
      rewrite Hio3, Hio2, Ha1, <- !app_assoc.
      repeat split; try apply Hcost3. right. right. split; reflexivity.
  - eexists. exists (a1 ++ a2)%list. eexists.
    split; [reflexivity|]. simpl.
    rewrite Hio2, Ha1, <- !app_assoc.
    repeat split; try apply Hcost2. right. left. split; reflexivity.
Qed.

(** X15.  Once [authenticate.admin] has yielded a session, the loader of
    the insights page never throws: whatever the backend does it returns
    its data, with the shop domain as [shopId]; [error] is unset, or says
    that the shop could not be registered, or that the backend is
    unavailable, and in both error cases the list of insights is empty. *)
Theorem insights_loader_never_throws :
  forall (env : Env) (authenticate_admin : M InsightsRoute.Session)
         (w w0 : World) (session : InsightsRoute.Session),
    authenticate_admin w = (Return session, w0) ->
    exists data : InsightsRoute.LoaderData,
      fst (InsightsRoute.loader env authenticate_admin w) = Return data
      /\ InsightsRoute.data_shopId data = InsightsRoute.shop session
      /\ (InsightsRoute.data_error data = None
          \/ (InsightsRoute.data_error data = Some InsightsRoute.register_failed
              /\ InsightsRoute.insights data = VArr [])
          \/ (InsightsRoute.data_error data
              = Some InsightsRoute.backend_unavailable
              /\ InsightsRoute.insights data = VArr [])).
Proof.
  intros env authenticate_admin w w0 session Hauth.
  destruct (@loader_summary env authenticate_admin w w0 session Hauth)
    as (data & added & w' & Hrun & Hshop & Herr & _).
  exists data. rewrite Hrun. repeat split; assumption.
Qed.

(** X16.  After authentication, one run of the loader of the insights page
    issues between 1 and 13 transport calls and waits at most 21000 ms in
    all. *)
Theorem insights_loader_cost :
  forall (env : Env) (authenticate_admin : M InsightsRoute.Session)
         (w w0 : World) (session : InsightsRoute.Session),
    authenticate_admin w = (Return session, w0) ->
    exists added : list IO,
      io (snd (InsightsRoute.loader env authenticate_admin w))
      = (io w0 ++ added)%list
      /\ 1 <= length (calls_of added) <= 13
      /\ (0 <= total (slept_of added) <= 21000)%Z.
Proof.
  intros env authenticate_admin w w0 session Hauth.
  destruct (@loader_summary env authenticate_admin w w0 session Hauth)
    as (data & added & w' & Hrun & _ & _ & Hio & Hcalls & Hslept).
  exists added. rewrite Hrun. repeat split; try assumption; lia.
Qed.

(** A first visit: one probe, a lookup that fails, a registration, and the
    insights of the registered shop. *)
Example insights_loader_first_visit :
  let run := InsightsRoute.loader env_first_visit (ret acme_session)
               initial_world in
  fst run
  = Return {| InsightsRoute.insights := one_insight;
              InsightsRoute.journeyStats := VNull;
              InsightsRoute.conversionGoal := VNull;
              InsightsRoute.data_error := None;
              InsightsRoute.data_shopId := "acme.myshopify.com" |}
  /\ map call_url (calls (snd run))
     = ["https://ecomdash-api.onrender.com/health";
        "https://ecomdash-api.onrender.com/api/shops/acme.myshopify.com";
        "https://ecomdash-api.onrender.com/api/shops";
        "https://ecomdash-api.onrender.com/api/insights?shop_id=uuid-2&page_size=10"].
Proof. vm_compute. split; reflexivity. Qed.

Lemma insights_loader_never_throws_witness :
  exists data : InsightsRoute.LoaderData,
    fst (InsightsRoute.loader env_404_detail (ret acme_session) initial_world)
    = Return data
    /\ InsightsRoute.data_shopId data = "acme.myshopify.com"
    /\ (InsightsRoute.data_error data = None
        \/ (InsightsRoute.data_error data = Some InsightsRoute.register_failed
            /\ InsightsRoute.insights data = VArr [])
        \/ (InsightsRoute.data_error data
            = Some InsightsRoute.backend_unavailable
            /\ InsightsRoute.insights data = VArr [])).
Proof.
  exact (@insights_loader_never_throws env_404_detail (ret acme_session)
           initial_world initial_world acme_session eq_refl).
Defined.

Lemma insights_loader_cost_witness :
  exists added : list IO,
    io (snd (InsightsRoute.loader env_first_visit (ret acme_session)
               initial_world))
    = (io initial_world ++ added)%list
    /\ 1 <= length (calls_of added) <= 13
    /\ (0 <= total (slept_of added) <= 21000)%Z.
Proof.
  exact (@insights_loader_cost env_first_visit (ret acme_session)
           initial_world initial_world acme_session eq_refl).
Defined.

(** The expectations of the test file for whole numbers. *)
Example formatNumber_tests :
  map (fun z => Format.formatNumber (Some (Int z)))
      [123; 0; 999; 1000; 1234; 12345; 123456; 1000000; 1234567; -1234]%Z
  = map Some
      ["123"; "0"; "999"; "1,000"; "1,234"; "12,345"; "123,456"; "1,000,000";
       "1,234,567"; "-1,234"].
Proof. vm_compute. reflexivity. Qed.

Example formatCurrency_tests :
  map (fun z => Format.formatCurrency (Some (Int z))) [0; 1; 1000]%Z
  = map Some ["$0.00"; "$1.00"; "$1,000.00"]
  /\ map Format.formatNumber_text ["1234.5678"; "1e+21"; "Infinity"]
     = ["1,234.5678"; "1e+21"; "Infinity"]
  /\ map Format.formatCurrency_fixed ["1234.56"; "1234567.89"; "2.00"]
     = ["$1,234.56"; "$1,234,567.89"; "$2.00"].
Proof. vm_compute. repeat split; reflexivity. Qed.

(* ================================================================== *)
(** * Properties of the format utilities *)

Lemma strip_commas_app (s t : string) :
  strip_commas (s ++ t) = strip_commas s ++ strip_commas t.
Proof.
  induction s as [|a s IH]; simpl; [reflexivity|].
  destruct (a =? ",")%char; simpl; rewrite IH; reflexivity.
Qed.

Lemma strip_commas_replace_from (s : string) :
  forall prev : option ascii,
    strip_commas (Format.replace_from prev s) = strip_commas s.
Proof.
  induction s as [|a s IH]; intros prev; simpl.
  - destruct (Format.not_boundary prev EmptyString && Format.lookahead EmptyString);
      reflexivity.
  - rewrite strip_commas_app. simpl. rewrite IH.
    destruct (Format.not_boundary prev (String a s) && Format.lookahead (String a s));
      reflexivity.
Qed.

Lemma all_chars_impl (p q : ascii -> bool) (s : string) :
  (forall a, p a = true -> q a = true) ->
  all_chars p s = true -> all_chars q s = true.
Proof.
  intros Hpq. induction s as [|a s IH]; simpl; [reflexivity|].
  intros H. apply andb_prop in H. destruct H as [Ha Hs].
  rewrite (Hpq a Ha), (IH Hs). reflexivity.
Qed.

Lemma split_without_separator (sep : ascii) (s : string) :
  all_chars (fun a => negb (a =? sep)%char) s = true ->
  Format.split sep s = [s].
Proof.
  induction s as [|a s IH]; simpl; [reflexivity|].
  intros H. apply andb_prop in H. destruct H as [Ha Hs].
  apply negb_true_iff in Ha. rewrite Ha, (IH Hs). reflexivity.
Qed.

Lemma split_at_separator (sep : ascii) (s t : string) :
  all_chars (fun a => negb (a =? sep)%char) s = true ->
  Format.split sep (s ++ String sep t) = s :: Format.split sep t.
Proof.
  induction s as [|a s IH]; simpl.
  - intros _. rewrite Ascii.eqb_refl. reflexivity.
  - intros H. apply andb_prop in H. destruct H as [Ha Hs].
    apply negb_true_iff in Ha. rewrite Ha, (IH Hs). reflexivity.
Qed.

Lemma is_digit_is_word (a : ascii) :
  Format.is_digit a = true -> Format.is_word a = true.
Proof.
  unfold Format.is_digit, Format.is_word. intros ->. reflexivity.
Qed.

Lemma is_digit_not_point (a : ascii) :
  Format.is_digit a = true -> negb (a =? ".")%char = true.
Proof.
  destruct (a =? ".")%char eqn:E; [|reflexivity].
  apply Ascii.eqb_eq in E. subst a. discriminate.
Qed.

Lemma is_digit_not_comma (a : ascii) :
  Format.is_digit a = true -> (a =? ",")%char = false.
Proof.
  destruct (a =? ",")%char eqn:E; [|reflexivity].
  apply Ascii.eqb_eq in E. subst a. discriminate.
Qed.

Lemma digit_run_all_digits (s : string) :
  all_chars Format.is_digit s = true -> Format.digit_run s = String.length s.
Proof.
  induction s as [|a s IH]; simpl; [reflexivity|].
  intros H. apply andb_prop in H. destruct H as [Ha Hs].
  rewrite Ha, (IH Hs). reflexivity.
Qed.

Lemma replace_from_digits (s : string) :
  forall a : ascii,
    Format.is_word a = true ->
    all_chars Format.is_digit s = true ->
    Format.replace_from (Some a) s = comma_if s ++ grouped s.
Proof.
  induction s as [|b s IH]; intros a Ha Hs.
  - cbn [Format.replace_from]. unfold Format.not_boundary. rewrite Ha.
    reflexivity.
  - pose proof Hs as Hall. simpl in Hs. apply andb_prop in Hs.
    destruct Hs as [Hb Hrest].
    cbn [Format.replace_from grouped].
    rewrite (IH b (is_digit_is_word b Hb) Hrest).
    unfold Format.not_boundary, Format.lookahead, comma_if.
    rewrite Ha, (is_digit_is_word b Hb), (digit_run_all_digits _ Hall).
    reflexivity.
Qed.

(** Commas into a run of digits, and into a run of digits after a sign. *)
Lemma add_commas_digits (s : string) :
  all_chars Format.is_digit s = true -> Format.add_commas s = grouped s.
Proof.
  destruct s as [|b s]; [reflexivity|].
  intros Hs. simpl in Hs. apply andb_prop in Hs. destruct Hs as [Hb Hrest].
  unfold Format.add_commas. cbn [Format.replace_from grouped].
  rewrite (replace_from_digits s b (is_digit_is_word b Hb) Hrest).
  unfold Format.not_boundary. rewrite (is_digit_is_word b Hb). reflexivity.
Qed.

Lemma add_commas_negative (s : string) :
  all_chars Format.is_digit s = true ->
  Format.add_commas (String "-" s) = String "-" (grouped s).
Proof.
  intros Hs. unfold Format.add_commas. cbn [Format.replace_from].
  change (Format.not_boundary None (String "-" s) && Format.lookahead (String "-" s))
    with false.
  cbn [append]. f_equal.
  destruct s as [|b s]; [reflexivity|].
  simpl in Hs. apply andb_prop in Hs. destruct Hs as [Hb Hrest].
  cbn [Format.replace_from grouped].
  rewrite (replace_from_digits s b (is_digit_is_word b Hb) Hrest).
  unfold Format.not_boundary.
  change (Format.is_word "-") with false.
  rewrite (is_digit_is_word b Hb). reflexivity.
Qed.

Lemma string_of_uint_digits (d : Decimal.uint) :
  all_chars Format.is_digit (NilEmpty.string_of_uint d) = true.
Proof. induction d; simpl; try exact IHd; reflexivity. Qed.

Lemma nilzero_string_of_uint_digits (d : Decimal.uint) :
  all_chars Format.is_digit (NilZero.string_of_uint d) = true.
Proof.
  destruct d; try reflexivity;
    exact (string_of_uint_digits _).
Qed.

(** The text of an integer: its digits, after a minus sign if it is
    negative. *)
Lemma number_to_String_sign (z : Z) :
  all_chars Format.is_digit (digits z) = true
  /\ number_to_String (Int z)
     = if (z <? 0)%Z then String "-" (digits z) else digits z.
Proof.
  unfold digits, number_to_String. destruct z as [|p|p]; simpl.
  - split; reflexivity.
  - split; [apply nilzero_string_of_uint_digits | reflexivity].
  - split; [apply nilzero_string_of_uint_digits | reflexivity].
Qed.

Lemma integer_text_no_point (z : Z) :
  all_chars (fun a => negb (a =? ".")%char) (number_to_String (Int z)) = true.
Proof.
  destruct (number_to_String_sign z) as [Hd ->].
  pose proof (all_chars_impl Format.is_digit (fun a => negb (a =? ".")%char)
                (digits z) is_digit_not_point Hd) as Hno.
  destruct (z <? 0)%Z; [simpl; exact Hno | exact Hno].
Qed.

Lemma text_without_point (text : string) :
  all_chars (fun a => negb (a =? ".")%char) text = true ->
  Format.formatNumber_text text = Format.add_commas text.
Proof.
  intros Hno. unfold Format.formatNumber_text.
  rewrite (split_without_separator "." text Hno). reflexivity.
Qed.

Lemma formatNumber_integer (z : Z) :
  (Z.abs z <= 2 ^ 53)%Z ->
  Format.formatNumber (Some (Int z))
  = Some (Format.add_commas (number_to_String (Int z))).
Proof.
  intros Hz. unfold Format.formatNumber, Format.integer_text, Format.MAX_EXACT.
  change (2 ^ 53)%Z with 9007199254740992%Z in Hz.
  apply Z.leb_le in Hz. rewrite Hz. cbn [option_map]. f_equal.
  exact (text_without_point _ (integer_text_no_point z)).
Qed.

(** X17.  On an integer a double holds exactly (at most 2^53 in absolute
    value), [formatNumber] gives the decimal digits with a comma before
    every group of three digits counted from the right, and the minus sign
    first for a negative number: no comma at the start and none after the
    sign. *)
Theorem formatNumber_groups_thousands :
  forall z : Z,
    (Z.abs z <= 2 ^ 53)%Z ->
    Format.formatNumber (Some (Int z))
    = Some ((if (z <? 0)%Z then "-" else EmptyString) ++ grouped (digits z)).
Proof.
  intros z Hz. rewrite (formatNumber_integer z Hz). f_equal.
  destruct (number_to_String_sign z) as [Hd ->].
  destruct (z <? 0)%Z.
  - exact (add_commas_negative (digits z) Hd).
  - exact (add_commas_digits (digits z) Hd).
Qed.

Lemma formatNumber_groups_thousands_witness :
  Format.formatNumber (Some (Int (-1234567))) = Some "-1,234,567".
Proof.
  apply (formatNumber_groups_thousands (-1234567)). simpl. lia.
Defined.

Lemma strip_commas_digits (s : string) :
  all_chars Format.is_digit s = true -> strip_commas s = s.
Proof.
  induction s as [|a s IH]; simpl; [reflexivity|].
  intros H. apply andb_prop in H. destruct H as [Ha Hs].
  rewrite (is_digit_not_comma a Ha), (IH Hs). reflexivity.
Qed.

(** X18.  [formatNumber] only adds commas.  On a text without a point,
    taking the commas out of its result gives the text without its commas;
    so on an integer a double holds exactly, it gives back the text of the
    number.  On a text with a fraction, the integer part gets the commas
    and the fraction is kept as it is. *)
Theorem formatNumber_only_adds_commas :
  (forall text : string,
      all_chars (fun a => negb (a =? ".")%char) text = true ->
      strip_commas (Format.formatNumber_text text) = strip_commas text)
  /\ (forall z : Z,
         (Z.abs z <= 2 ^ 53)%Z ->
         option_map strip_commas (Format.formatNumber (Some (Int z)))
         = Some (number_to_String (Int z)))
  /\ (forall integer fraction : string,
         all_chars (fun a => negb (a =? ".")%char) integer = true ->
         all_chars (fun a => negb (a =? ".")%char) fraction = true ->
         fraction <> EmptyString ->
         Format.formatNumber_text (integer ++ "." ++ fraction)
         = Format.add_commas integer ++ "." ++ fraction
         /\ strip_commas (Format.add_commas integer) = strip_commas integer).
Proof.
  split; [|split].
  - intros text Hno. rewrite (text_without_point text Hno).
    unfold Format.add_commas. apply strip_commas_replace_from.
  - intros z Hz. rewrite (formatNumber_integer z Hz). cbn [option_map]. f_equal.
    unfold Format.add_commas. rewrite strip_commas_replace_from.
    destruct (number_to_String_sign z) as [Hd ->].
    destruct (z <? 0)%Z; simpl; rewrite (strip_commas_digits _ Hd); reflexivity.
  - intros integer fraction Hi Hf Hne. split.
    + unfold Format.formatNumber_text.
      change ("." ++ fraction) with (String "." fraction).
      rewrite (split_at_separator "." integer fraction Hi).
      rewrite (split_without_separator "." fraction Hf).
      cbn [nth nth_error].
      destruct fraction as [|a fraction]; [contradiction | reflexivity].
    + unfold Format.add_commas. apply strip_commas_replace_from.
Qed.

Lemma formatNumber_only_adds_commas_witness :
  strip_commas (Format.formatNumber_text "1e+21") = strip_commas "1e+21"
  /\ option_map strip_commas (Format.formatNumber (Some (Int 9007199254740992)))
     = Some "9007199254740992"
  /\ Format.formatNumber_text ("1234" ++ "." ++ "5678")
     = Format.add_commas "1234" ++ "." ++ "5678"
  /\ strip_commas (Format.add_commas "1234") = strip_commas "1234".
Proof.
  destruct formatNumber_only_adds_commas as (Htext & Hinteger & Hfraction).
  split; [exact (Htext "1e+21" eq_refl)|].
  split; [apply (Hinteger 9007199254740992%Z); simpl; lia|].
  apply (Hfraction "1234" "5678"); [reflexivity | reflexivity | discriminate].
Defined.

(** X19.  On an integer amount a double holds exactly (at most 2^53 in
    absolute value), [formatCurrency] is [formatNumber] of the same amount
    between a dollar sign and ".00". *)
Theorem formatCurrency_whole_amount :
  forall z : Z,
    (Z.abs z <= 2 ^ 53)%Z ->
    exists formatted : string,
      Format.formatNumber (Some (Int z)) = Some formatted
      /\ Format.formatCurrency (Some (Int z)) = Some ("$" ++ formatted ++ ".00").
Proof.
  intros z Hz. eexists. split; [exact (formatNumber_integer z Hz)|].
  unfold Format.formatCurrency, Format.toFixed2, Format.integer_text,
    Format.MAX_EXACT.
  change (2 ^ 53)%Z with 9007199254740992%Z in Hz.
  apply Z.leb_le in Hz. rewrite Hz. cbn [option_map]. f_equal.
  unfold Format.formatCurrency_fixed.
  change ".00" with (String "." "00").
  rewrite (split_at_separator "." _ "00" (integer_text_no_point z)).
  reflexivity.
Qed.

Lemma formatCurrency_whole_amount_witness :
  exists formatted : string,
    Format.formatNumber (Some (Int 1234567)) = Some formatted
    /\ Format.formatCurrency (Some (Int 1234567))
       = Some ("$" ++ formatted ++ ".00").
Proof.
  apply (formatCurrency_whole_amount 1234567). simpl. lia.
Defined.

(** Past 2^53 the text of an integer is not in the model, and neither are
    the results of the two functions. *)
Example format_outside_the_model :
  Format.formatNumber (Some (Int (2 ^ 60))) = None
  /\ Format.formatCurrency (Some (Int (10 ^ 21))) = None.
Proof. split; reflexivity. Qed.

(** X20.  When the text [toFixed(2)] gives has no decimal point, which is
    the case of "Infinity" and of the exponent notation of the numbers
    from 1e21 on, [formatCurrency] ends its result with ".undefined". *)
Theorem formatCurrency_without_point :
  forall fixed : string,
    all_chars (fun a => negb (a =? ".")%char) fixed = true ->
    Format.formatCurrency_fixed fixed
    = "$" ++ Format.add_commas fixed ++ ".undefined".
Proof.
  intros fixed Hno. unfold Format.formatCurrency_fixed.
  rewrite (split_without_separator "." fixed Hno). reflexivity.
Qed.

Lemma formatCurrency_without_point_witness :
  Format.formatCurrency_fixed "Infinity" = "$Infinity.undefined".
Proof.
  exact (formatCurrency_without_point "Infinity" eq_refl).
Defined.
